(** * etl_keras.py: windowing, normalisation and incremental persistence

    A shallow embedding of the [ETL] class of [src/etl_keras.py].

    - The CSV table read by [pd.read_csv] is an input of the model
      ([DataFrame]); the HDF5 destination is an explicit store
      ([option H5File]) threaded through the writer and the reader.
    - Python generators are modelled by their loop body (one iteration
      of the [while]) and by the list of values they yield together with
      the way they terminate.
    - Cells are 64-bit floats in the program.  Their arithmetic is kept
      abstract (class [Cell]): no law of arithmetic is assumed anywhere,
      so every theorem holds for IEEE arithmetic as well as for the exact
      rationals (module [Exact]) on which the examples are run. *)

From Stdlib Require Import String List Arith Bool Lia QArith.
Import ListNotations.
Local Open Scope string_scope.
Local Open Scope list_scope.
Local Open Scope nat_scope.

(** ** Exceptions and fallible computations *)

Inductive exn : Type :=
| ValueError          (* list.index: value not in list *)
| IndexError          (* positional access out of bounds *)
| ZeroDivisionError   (* integer modulo by zero *)
| StopIteration       (* next() on an exhausted generator *)
| KeyError            (* hf[name] on a missing dataset *)
| OSError.            (* opening a missing file for reading *)

Inductive result (A : Type) : Type :=
| Ok (a : A)
| Raise (e : exn).
Arguments Ok {A} a.
Arguments Raise {A} e.

Definition bind {A B : Type} (c : result A) (k : A -> result B) : result B :=
  match c with
  | Ok a => k a
  | Raise e => Raise e
  end.

Declare Scope result_scope.
Delimit Scope result_scope with result.
Notation "x <- c ;; k" := (bind c (fun x => k))
  (at level 61, c at next level, right associativity) : result_scope.
Notation "' pat <- c ;; k" := (bind c (fun x => match x with pat => k end))
  (at level 61, pat pattern, c at next level, right associativity) : result_scope.
Local Open Scope result_scope.

(** ** Generic list operations used by the program *)

(** Python's [l[lo:hi]] for non-negative bounds: clipped, never raising. *)
Definition slice {A : Type} (lo hi : nat) (l : list A) : list A :=
  firstn (hi - lo) (skipn lo l).

Fixpoint zip_with {A B C : Type} (f : A -> B -> C) (l : list A) (m : list B) : list C :=
  match l, m with
  | a :: l', b :: m' => f a b :: zip_with f l' m'
  | _, _ => []
  end.

(** Keep the entries of [l] whose mask bit is set. *)
Fixpoint select {A : Type} (mask : list bool) (l : list A) : list A :=
  match mask, l with
  | true :: mask', a :: l' => a :: select mask' l'
  | false :: mask', _ :: l' => select mask' l'
  | _, _ => []
  end.

(** [list(...).index(x)]: position of the first occurrence, or [ValueError]. *)
Fixpoint index (x : string) (l : list string) : result nat :=
  match l with
  | [] => Raise ValueError
  | c :: l' => if String.eqb c x then Ok 0 else (n <- index x l' ;; Ok (S n))
  end.

(** ** Cells *)

(** The numeric interface of a cell.  [isnull] is pandas' missing-value
    test (NaN).  [to_f4] is the conversion applied by h5py when a value
    is written into a dataset: [create_dataset] is called without a
    [dtype], so both datasets are created as 32-bit floats. *)
Class Cell (V : Type) : Type := {
  isnull : V -> bool;
  fadd : V -> V -> V;
  fsub : V -> V -> V;
  fdiv : V -> V -> V;
  fzero : V;
  fone : V;
  of_count : nat -> V;
  to_f4 : V -> V
}.

Section ETL.

Context {V : Type} `{Cell V}.

(** ** Tables *)

(** A table is held row-major, as [DataFrame.values] exposes it; each row
    lists its cells in the order of [columns].  Row and column labels take
    no part in the program beyond the column names: every binary operation
    the program performs combines a frame with a row of the same table, for
    which pandas' alignment by label is the positional one modelled here. *)
Record DataFrame : Type := {
  columns : list string;
  values : list (list V)
}.

Definition matrix : Type := list (list V).

(** A batch as yielded: the 3-dimensional [x_np_arr] and the
    1-dimensional [y_np_arr]. *)
Definition batch : Type := (list matrix * list V)%type.

(** Every row has one cell per column. *)
Definition well_formed (data : DataFrame) : bool :=
  forallb (fun r => length r =? length (columns data)) (values data).

(** [len(data)] *)
Definition num_rows_of (data : DataFrame) : nat := length (values data).

(** [data[lo:hi]]: positional row slice. *)
Definition rows (lo hi : nat) (data : DataFrame) : DataFrame :=
  {| columns := columns data; values := slice lo hi (values data) |}.

(** [data.isnull().values.any()] *)
Definition has_null (data : DataFrame) : bool :=
  existsb (existsb isnull) (values data).

(** Lines 27-31: when [filter_cols] is truthy, delete every column whose
    name is not in it; the surviving columns keep their order. *)
Definition keep_mask (keep cols : list string) : list bool :=
  map (fun c => existsb (String.eqb c) keep) cols.

Definition filter_columns (filter_cols : option (list string)) (data : DataFrame)
  : DataFrame :=
  match filter_cols with
  | Some (c :: cs) =>
      let mask := keep_mask (c :: cs) (columns data) in
      {| columns := select mask (columns data);
         values := map (select mask) (values data) |}
  | _ => data
  end.

(** [m[:, k]] on a 2-dimensional array. *)
Fixpoint column (k : nat) (m : matrix) : result (list V) :=
  match m with
  | [] => Ok []
  | r :: m' =>
      match nth_error r k with
      | None => Raise IndexError
      | Some v => vs <- column k m' ;; Ok (v :: vs)
      end
  end.

(** [np.average(a)] without weights: the sum of the entries divided by
    their number. *)
Definition average (a : list V) : V :=
  fdiv (fold_left fadd a fzero) (of_count (length a)).

(** ** WindowTransform: [zero_base_standardize] (lines 115-119) *)

(** What can be passed as [abs_base]: a frame (the default argument is
    the empty frame [pd.DataFrame()]) or a series (a row, [data.iloc[0]]). *)
Inductive pandas_obj : Type :=
| Frame (df : DataFrame)
| Series (s : list V).

Definition default_abs_base : pandas_obj :=
  Frame {| columns := []; values := [] |}.

(** The [.empty] attribute: some axis has length zero. *)
Definition empty (o : pandas_obj) : bool :=
  match o with
  | Frame df => (length (values df) =? 0) || (length (columns df) =? 0)
  | Series s => length s =? 0
  end.

(** [data.iloc[0]] *)
Definition iloc0 (data : DataFrame) : result (list V) :=
  match values data with
  | [] => Raise IndexError
  | r :: _ => Ok r
  end.

(** [data / o]: a series divides every row, column by column; a frame
    divides cell by cell.  Operands are matched by position: this is
    pandas' division when the labels of [o] are the columns of [data], in
    the same order, as they are for every base [clean_data] passes (the
    first row of a window of the same table).  For other labels pandas
    aligns on the union of the labels, which is not modelled: a series
    here has no labels of its own, and stands for one whose labels are
    the columns of [data]. *)
Definition frame_div (data : DataFrame) (o : pandas_obj) : DataFrame :=
  match o with
  | Series s =>
      {| columns := columns data;
         values := map (fun r => zip_with fdiv r s) (values data) |}
  | Frame df =>
      {| columns := columns data;
         values := zip_with (zip_with fdiv) (values data) (values df) |}
  end.

(** [data - c] for a scalar [c]. *)
Definition frame_sub_scalar (data : DataFrame) (c : V) : DataFrame :=
  {| columns := columns data;
     values := map (map (fun v => fsub v c)) (values data) |}.

Definition zero_base_standardize (data : DataFrame) (abs_base : pandas_obj)
  : result (pandas_obj * DataFrame) :=
  abs_base <- (if empty abs_base
               then (r <- iloc0 data ;; Ok (Series r))
               else Ok abs_base) ;;
  let data_standardized := frame_sub_scalar (frame_div data abs_base) fone in
  Ok (abs_base, data_standardized).

(** ** WindowGenerator: [clean_data] (lines 23-72) *)

Record Config : Type := {
  batch_size : nat;
  x_window_size : nat;
  y_window_size : nat;
  y_col : string;
  filter_cols : option (list string);
  normalize : bool
}.

(** The local variables of the generator that change in the loop. *)
Record gen_state : Type := {
  i : nat;
  x_data : list matrix;
  y_data : list V
}.

(** What one iteration of the [while] did: the window was rejected
    (lines 45-47), or it was accepted, its pair appended (lines 58-59) and
    possibly a batch yielded (lines 65-72). *)
Inductive step_outcome : Type :=
| Rejected
| Accepted (x : matrix) (y : V) (yielded : option batch).

Section Loop.

Variable cfg : Config.
Variable data : DataFrame.     (* the table after column filtering *)
Variable y_idx : nat.          (* the local [y_col] of line 34 *)

(** The [while] condition of line 40. *)
Definition in_range (st : gen_state) : bool :=
  i st + x_window_size cfg + y_window_size cfg <=? num_rows_of data.

Definition x_window (pos : nat) : DataFrame :=
  rows pos (pos + x_window_size cfg) data.

Definition y_window (pos : nat) : DataFrame :=
  rows (pos + x_window_size cfg)
       (pos + x_window_size cfg + y_window_size cfg) data.

(** Lines 41-72: one iteration. *)
Definition loop_body (st : gen_state) : result (gen_state * step_outcome) :=
  let x_window_data := x_window (i st) in
  let y_window_data := y_window (i st) in
  if has_null x_window_data || has_null y_window_data then
    Ok ({| i := i st + 1; x_data := x_data st; y_data := y_data st |}, Rejected)
  else
    '(x_window_data, y_window_data) <-
      (if normalize cfg then
         '(abs_base, x_std) <- zero_base_standardize x_window_data default_abs_base ;;
         '(_, y_std) <- zero_base_standardize y_window_data abs_base ;;
         Ok (x_std, y_std)
       else Ok (x_window_data, y_window_data)) ;;
    y_cells <- column y_idx (values y_window_data) ;;
    let y_average := average y_cells in
    let x_data' := x_data st ++ [values x_window_data] in
    let y_data' := y_data st ++ [y_average] in
    let i' := i st + 1 in
    if batch_size cfg =? 0 then Raise ZeroDivisionError
    else if i' mod batch_size cfg =? 0 then
      Ok ({| i := i'; x_data := []; y_data := [] |},
          Accepted (values x_window_data) y_average (Some (x_data', y_data')))
    else
      Ok ({| i := i'; x_data := x_data'; y_data := y_data' |},
          Accepted (values x_window_data) y_average None).

(** How a generator run ends. *)
Inductive termination : Type :=
| Exhausted             (* the loop condition became false *)
| Raised (e : exn)      (* an exception escaped the generator *)
| OutOfFuel.            (* artefact of the model; shown unreachable *)

(** The [while] of line 40, recording for each iteration the row index it
    started at and what it did. *)
Fixpoint while_loop (fuel : nat) (st : gen_state)
  : list (nat * step_outcome) * termination :=
  match fuel with
  | 0 => ([], OutOfFuel)
  | S fuel' =>
      if in_range st then
        match loop_body st with
        | Raise e => ([], Raised e)
        | Ok (st', o) =>
            let '(tr, t) := while_loop fuel' st' in
            ((i st, o) :: tr, t)
        end
      else ([], Exhausted)
  end.

End Loop.

Definition initial_state : gen_state := {| i := 0; x_data := []; y_data := [] |}.

(** The whole generator body, instrumented: the iterations it performs.
    The loop runs at most [num_rows + 1] times before its condition fails,
    so [num_rows + 2] units of fuel are enough
    (lemma [clean_data_trace_terminates]). *)
Definition clean_data_trace (cfg : Config) (csv : DataFrame)
  : list (nat * step_outcome) * termination :=
  let data := filter_columns (filter_cols cfg) csv in
  match index (y_col cfg) (columns data) with
  | Raise e => ([], Raised e)
  | Ok y_idx => while_loop cfg data y_idx (num_rows_of data + 2) initial_state
  end.

(** The batches yielded by the iterations of a trace, in order. *)
Fixpoint yields (tr : list (nat * step_outcome)) : list batch :=
  match tr with
  | [] => []
  | (_, Accepted _ _ (Some b)) :: tr' => b :: yields tr'
  | _ :: tr' => yields tr'
  end.

(** The (input window, target) pairs accepted by the iterations of a trace,
    each with the row index of its window. *)
Fixpoint accepted (tr : list (nat * step_outcome)) : list (nat * (matrix * V)) :=
  match tr with
  | [] => []
  | (pos, Accepted x y _) :: tr' => (pos, (x, y)) :: accepted tr'
  | (_, Rejected) :: tr' => accepted tr'
  end.

(** [clean_data] as its consumer sees it: the batches it yields, then how
    it stops. *)
Definition clean_data (cfg : Config) (csv : DataFrame) : list batch * termination :=
  let '(tr, t) := clean_data_trace cfg csv in (yields tr, t).

(** ** The HDF5 destination *)

(** The container at [filename_out]: two named datasets, each present
    or not. *)
Record H5File : Type := {
  h5_x : option (list matrix);
  h5_y : option (list V)
}.

(** A container just created by [h5py.File(name, 'w')]. *)
Definition new_h5 : H5File := {| h5_x := None; h5_y := None |}.

(** [hf.create_dataset(name, shape=(n, ...))]: [n] fill entries. *)
Definition create_dataset {A : Type} (fill : A) (n : nat) : list A :=
  repeat fill n.

(** [dset.resize(n, axis=0)]: truncate, or extend with fill entries. *)
Definition resize {A : Type} (fill : A) (n : nat) (dset : list A) : list A :=
  firstn n dset ++ repeat fill (n - length dset).

(** [dset[lo:] = new]: overwrite in place from [lo] on.  At every call the
    dataset has just been given [lo + len(new)] entries (lemmas
    [create_dataset_length] and [resize_length]), so the region [dset[lo:]]
    and [new] have the same length. *)
Definition assign_from {A : Type} (lo : nat) (new dset : list A) : list A :=
  firstn lo dset ++ new ++ skipn (lo + length new) dset.

Definition zero_matrix (shape : nat * nat) : matrix :=
  repeat (repeat fzero (snd shape)) (fst shape).

(** [x1.shape[1], x1.shape[2]].  (For windows without rows the column
    count read off the nested list is 0; the fill windows built from the
    shape, the only use made of it, have no row either way.) *)
Definition window_shape (x1 : list matrix) : nat * nat :=
  (length (hd [] x1), length (hd [] (hd [] x1))).

(** ** DatasetWriter: [create_clean_datafile] (lines 75-104) *)

Record writer_state : Type := {
  dset_x : list matrix;
  dset_y : list V;
  x_shape : nat * nat;      (* the fixed trailing dimensions of [dset_x] *)
  rcount_x : nat;
  rcount_y : nat;
  batch_no : nat            (* the writer's local [i], used for progress output *)
}.

(** Lines 86-91: create both datasets from the first batch. *)
Definition writer_init (b1 : batch) : writer_state :=
  let '(x1, y1) := b1 in
  let shape := window_shape x1 in
  {| dset_x := assign_from 0 (map (map (map to_f4)) x1)
                 (create_dataset (zero_matrix shape) (length x1));
     dset_y := assign_from 0 (map to_f4 y1) (create_dataset fzero (length y1));
     x_shape := shape;
     rcount_x := length x1;
     rcount_y := length y1;
     batch_no := 0 |}.

(** Lines 95-103: the body of the [for] loop. *)
Definition writer_append (w : writer_state) (b : batch) : writer_state :=
  let '(x_batch, y_batch) := b in
  let dx := resize (zero_matrix (x_shape w)) (rcount_x w + length x_batch) (dset_x w) in
  let dx := assign_from (rcount_x w) (map (map (map to_f4)) x_batch) dx in
  let dy := resize fzero (rcount_y w + length y_batch) (dset_y w) in
  let dy := assign_from (rcount_y w) (map to_f4 y_batch) dy in
  {| dset_x := dx;
     dset_y := dy;
     x_shape := x_shape w;
     rcount_x := rcount_x w + length x_batch;
     rcount_y := rcount_y w + length y_batch;
     batch_no := batch_no w + 1 |}.

(** The [for] loop of line 93: the writer's state after each append. *)
Fixpoint writer_loop (w : writer_state) (batches : list batch) : list writer_state :=
  match batches with
  | [] => []
  | b :: batches' =>
      let w' := writer_append w b in
      w' :: writer_loop w' batches'
  end.

(** The states of the writer after the initial write and after each
    append, in order. *)
Definition writer_states (b1 : batch) (rest : list batch) : list writer_state :=
  writer_init b1 :: writer_loop (writer_init b1) rest.

Definition h5_of (w : writer_state) : H5File :=
  {| h5_x := Some (dset_x w); h5_y := Some (dset_y w) |}.

(** The whole writer.  The destination is opened in mode ['w'] before the
    first batch is drawn, so whatever was at [filename_out] is replaced by
    a new container; leaving the [with] block, normally or by an
    exception, closes it.  [OutOfFuel] does not occur
    (lemma [clean_data_trace_terminates]). *)
Definition create_clean_datafile (cfg : Config) (csv : DataFrame)
    (disk : option H5File) : result unit * option H5File :=
  let '(batches, t) := clean_data cfg csv in
  match batches with
  | [] =>
      let e := match t with Raised e => e | _ => StopIteration end in
      (Raise e, Some new_h5)
  | b1 :: rest =>
      let w := last (writer_states b1 rest) (writer_init b1) in
      let r := match t with Raised e => Raise e | _ => Ok tt end in
      (r, Some (h5_of w))
  end.

(** ** DatasetReader: [generate_clean_data] (lines 106-113) *)

(** One pass through the body of [while True]: the pair yielded and the
    value of [i] afterwards. *)
Definition generate_clean_data_step (cfg : Config) (disk : option H5File)
    (pos : nat) : result (batch * nat) :=
  match disk with
  | None => Raise OSError
  | Some hf =>
      match h5_x hf with
      | None => Raise KeyError
      | Some xs =>
          let data_x := slice pos (pos + batch_size cfg) xs in
          match h5_y hf with
          | None => Raise KeyError
          | Some ys =>
              let data_y := slice pos (pos + batch_size cfg) ys in
              Ok ((data_x, data_y), pos + batch_size cfg)
          end
      end
  end.

(** The [n]-th value (counting from 0) pulled from
    [generate_clean_data(start_index)]. *)
Fixpoint generate_clean_data (cfg : Config) (disk : option H5File)
    (start_index : nat) (n : nat) : result batch :=
  '(b, pos') <- generate_clean_data_step cfg disk start_index ;;
  match n with
  | 0 => Ok b
  | S n' => generate_clean_data cfg disk pos' n'
  end.

(** ** Auxiliary definitions for the statements below *)

(** The test of line 45 at row index [pos]. *)
Definition window_has_null (cfg : Config) (data : DataFrame) (pos : nat) : bool :=
  has_null (x_window cfg data pos) || has_null (y_window cfg data pos).

(** Lines 49-51 at row index [pos]: the two windows as they reach the
    averaging step. *)
Definition model_windows (cfg : Config) (data : DataFrame) (pos : nat)
  : result (DataFrame * DataFrame) :=
  if normalize cfg then
    '(abs_base, x_std) <-
        zero_base_standardize (x_window cfg data pos) default_abs_base ;;
    '(_, y_std) <- zero_base_standardize (y_window cfg data pos) abs_base ;;
    Ok (x_std, y_std)
  else Ok (x_window cfg data pos, y_window cfg data pos).

(** *** The target in the words of the specification

    The definitions of this part use none of [slice], [index], [column],
    [zip_with], [average] or [zero_base_standardize]: they say anew, from
    the specification, what the code is to compute. *)

(** The sum of some cells, given last cell first: the sum of the earlier
    cells, plus the last one; the sum of no cell is zero. *)
Fixpoint sum_last_first (cells_reversed : list V) : V :=
  match cells_reversed with
  | [] => fzero
  | last_cell :: earlier => fadd (sum_last_first earlier) last_cell
  end.

(** The arithmetic mean: the sum of the cells, taken in order, divided
    by their number. *)
Definition mean_by_spec (cells : list V) : V :=
  fdiv (sum_last_first (rev cells)) (of_count (length cells)).

(** The cell of row [r] under the (first) column named [name]. *)
Definition cell_named (cols : list string) (name : string) (r : list V) : option V :=
  option_map snd (find (fun p => String.eqb (fst p) name) (combine cols r)).

(** All the cells, when every one of them is there. *)
Fixpoint all_present (cells : list (option V)) : option (list V) :=
  match cells with
  | [] => Some []
  | None :: _ => None
  | Some v :: rest =>
      match all_present rest with
      | Some vs => Some (v :: vs)
      | None => None
      end
  end.

(** A row on the scale of [base]: each cell divided by the cell of [base]
    in the same column, minus one. *)
Definition on_base (base r : list V) : list V :=
  map (fun p => fsub (fdiv (fst p) (snd p)) fone) (combine r base).

(** The target of the window at [pos] in the words of the specification:
    the mean of the [y_col] cells of the [y_window_size] rows that follow
    the input window, each row first put on the scale of the first row of
    the input window when [normalize] is set. *)
Definition target_by_spec (cfg : Config) (data : DataFrame) (pos : nat) : option V :=
  let input_rows := firstn (x_window_size cfg) (skipn pos (values data)) in
  let target_rows :=
    firstn (y_window_size cfg) (skipn (pos + x_window_size cfg) (values data)) in
  let scaled :=
    if normalize cfg then
      match input_rows with
      | base :: _ => Some (map (on_base base) target_rows)
      | [] => None
      end
    else Some target_rows in
  match scaled with
  | None => None
  | Some target_rows =>
      match all_present (map (cell_named (columns data) (y_col cfg)) target_rows) with
      | Some cells => Some (mean_by_spec cells)
      | None => None
      end
  end.

(** The state of the writer once the batches [done] have been stored:
    both datasets hold what was written, converted, and both counters
    give their length. *)
Definition stored (done : list batch) (w : writer_state) : Prop :=
  dset_x w = map (map (map to_f4)) (concat (map fst done)) /\
  dset_y w = map to_f4 (concat (map snd done)) /\
  rcount_x w = length (concat (map fst done)) /\
  rcount_y w = length (concat (map snd done)).

End ETL.

Arguments DataFrame V : clear implicits.
Arguments pandas_obj V : clear implicits.
Arguments H5File V : clear implicits.
Arguments writer_state V : clear implicits.
Arguments gen_state V : clear implicits.
Arguments step_outcome V : clear implicits.
Arguments matrix V : clear implicits.
Arguments batch V : clear implicits.

(** ** The rest of the class: [min_max_normalize] (lines 121-126) *)

(** Comparison of cells ([<=] on floats, false as soon as one side is
    NaN) and the NaN that pandas returns for the minimum or maximum of a
    column without any present cell. *)
Class CellOrder (V : Type) : Type := {
  fle : V -> V -> bool;
  fnan : V
}.

Section MinMax.

Context {V : Type} `{Cell V} `{CellOrder V}.

(** The cells of column [j], top to bottom. *)
Definition column_cells (data : DataFrame V) (j : nat) : list V :=
  flat_map (fun r => match nth_error r j with Some v => [v] | None => [] end)
           (values data).

(** A reduction of pandas with its default [skipna=True]: missing cells
    are left out, and a column without any present cell gives NaN. *)
Definition reduce_present (keep_first : V -> V -> bool) (cells : list V) : V :=
  match filter (fun v => negb (isnull v)) cells with
  | [] => fnan
  | v :: vs => fold_left (fun m c => if keep_first m c then m else c) vs v
  end.

Definition column_min (cells : list V) : V :=
  reduce_present (fun m c => fle m c) cells.

Definition column_max (cells : list V) : V :=
  reduce_present (fun m c => fle c m) cells.

(** [data.min()] and [data.max()]: one cell per column. *)
Definition frame_min (data : DataFrame V) : list V :=
  map (fun j => column_min (column_cells data j)) (seq 0 (length (columns data))).

Definition frame_max (data : DataFrame V) : list V :=
  map (fun j => column_max (column_cells data j)) (seq 0 (length (columns data))).

(** [data - o], matched by position as in [frame_div], and with the same
    reading of the labels. *)
Definition frame_sub (data : DataFrame V) (o : pandas_obj V) : DataFrame V :=
  match o with
  | Series s =>
      {| columns := columns data;
         values := map (fun r => zip_with fsub r s) (values data) |}
  | Frame df =>
      {| columns := columns data;
         values := zip_with (zip_with fsub) (values data) (values df) |}
  end.

(** [a - b] for two pandas objects: two series cell by cell, a frame and
    a series row by row, two frames cell by cell. *)
Definition obj_sub (a b : pandas_obj V) : pandas_obj V :=
  match a, b with
  | Series s, Series t => Series (zip_with fsub s t)
  | Frame df, _ => Frame (frame_sub df b)
  | Series s, Frame df =>
      Frame {| columns := columns df;
               values := map (fun r => zip_with fsub s r) (values df) |}
  end.

Definition min_max_normalize (data : DataFrame V) (data_min data_max : pandas_obj V)
  : pandas_obj V * pandas_obj V * DataFrame V :=
  let data_min := if empty data_min then Series (frame_min data) else data_min in
  let data_max := if empty data_max then Series (frame_max data) else data_max in
  let data_normalized :=
    frame_div (frame_sub data data_min) (obj_sub data_max data_min) in
  (data_min, data_max, data_normalized).

End MinMax.

(** ** Further auxiliary definitions *)

Section Positions.

Context {V : Type} `{Cell V}.

(** The number of row indices at which both windows fit in the table. *)
Definition num_positions (cfg : Config) (data : DataFrame V) : nat :=
  num_rows_of data + 1 - (x_window_size cfg + y_window_size cfg).

(** A row index that the loop reaches and does not reject. *)
Definition acceptable (cfg : Config) (data : DataFrame V) (pos : nat) : bool :=
  (pos + x_window_size cfg + y_window_size cfg <=? num_rows_of data)
  && negb (window_has_null cfg data pos).

(** The shape of one input window: [rows] rows of [cols] cells. *)
Definition has_shape (rows cols : nat) (m : matrix V) : Prop :=
  length m = rows /\ Forall (fun r => length r = cols) m.

End Positions.

(** ** A concrete cell type for examples: exact rationals with NaN *)

Module Exact.

Inductive num : Type :=
| Num (q : Q)
| NaN.

Definition lift2 (f : Q -> Q -> Q) (a b : num) : num :=
  match a, b with
  | Num p, Num q => Num (Qred (f p q))
  | _, _ => NaN
  end.

(** Division by zero gives [NaN] here: there are no infinities, and the
    examples never divide by zero. *)
Definition div (a b : num) : num :=
  match a, b with
  | Num p, Num q => if Qeq_bool q 0 then NaN else Num (Qred (Qdiv p q))
  | _, _ => NaN
  end.

(** *** Conversion to 32-bit floats

    The datasets are created without a [dtype] (lines 87 and 90), so h5py
    stores IEEE 754 single precision values: a significand of 24 bits,
    exponents down to [-149] for the last bit, rounding to the nearest
    value and to the even significand on a tie. *)

(** [(n / d) / 2 ^ e] as a fraction. *)
Definition scale_by_pow2 (e n d : Z) : Z * Z :=
  if (0 <=? e)%Z then (n, (d * 2 ^ e)%Z) else ((n * 2 ^ (- e))%Z, d).

(** For [n, d > 0], the [e] with [2 ^ e <= n / d < 2 ^ (e + 1)]. *)
Definition floor_log2 (n d : Z) : Z :=
  let e := (Z.log2 n - Z.log2 d)%Z in
  let (n', d') := scale_by_pow2 e n d in
  if (d' <=? n')%Z then e else (e - 1)%Z.

(** The integer nearest to [n / d], the even one on a tie. *)
Definition round_half_even (n d : Z) : Z :=
  let q := (n / d)%Z in
  match (2 * (n mod d) ?= d)%Z with
  | Lt => q
  | Gt => (q + 1)%Z
  | Eq => if Z.even q then q else (q + 1)%Z
  end.

(** The single precision value nearest to [n / d], for [n, d > 0];
    [None] when the rounded value is beyond the largest one. *)
Definition round_f4 (n d : Z) : option Q :=
  let e := floor_log2 n d in
  let last_bit := Z.max (e - 23) (-149) in
  let (n', d') := scale_by_pow2 last_bit n d in
  let m := round_half_even n' d' in
  if (0 <=? last_bit)%Z
  then (if (2 ^ 128 <=? m * 2 ^ last_bit)%Z then None
        else Some (inject_Z (m * 2 ^ last_bit)))
  else Some (Qred (Qmake m (Z.to_pos (2 ^ (- last_bit))))).

(** A value beyond the range of single precision becomes an infinity in
    the file; with no infinities here it is given as [NaN], and no
    example gets there. *)
Definition f4 (a : num) : num :=
  match a with
  | NaN => NaN
  | Num q =>
      match Qnum q with
      | Z0 => Num 0
      | Zpos n =>
          match round_f4 (Zpos n) (Zpos (Qden q)) with
          | Some r => Num r
          | None => NaN
          end
      | Zneg n =>
          match round_f4 (Zpos n) (Zpos (Qden q)) with
          | Some r => Num (Qred (Qopp r))
          | None => NaN
          end
      end
  end.

#[export] Instance num_cell : Cell num := {|
  isnull := fun a => match a with NaN => true | Num _ => false end;
  fadd := lift2 Qplus;
  fsub := lift2 Qminus;
  fdiv := div;
  fzero := Num 0;
  fone := Num 1;
  of_count := fun n => Num (inject_Z (Z.of_nat n));
  to_f4 := f4
|}.

(** A one-column table ["close"] from a list of integers. *)
Definition close_of (l : list Z) : DataFrame num :=
  {| columns := ["close"%string];
     values := map (fun z => [Num (inject_Z z)]) l |}.

(** The end-to-end scenario of the specification: twenty rows 1..20. *)
Definition scenario_table : DataFrame num :=
  close_of (map Z.of_nat (seq 1 20)).

Definition scenario_cfg : Config :=
  {| batch_size := 2; x_window_size := 3; y_window_size := 1;
     y_col := "close"; filter_cols := None; normalize := true |}.

(** Eight rows 1..8 under the same configuration. *)
Definition short_table : DataFrame num :=
  close_of (map Z.of_nat (seq 1 8)).

(** A table whose first cell is missing, scanned with windows of one row
    and batches of two. *)
Definition nan_table : DataFrame num :=
  {| columns := ["close"%string];
     values := [[NaN]; [Num 1]; [Num 2]; [Num 3]; [Num 4]] |}.

Definition nan_cfg : Config :=
  {| batch_size := 2; x_window_size := 1; y_window_size := 1;
     y_col := "close"; filter_cols := None; normalize := false |}.

(** A table whose third cell is missing, scanned with windows of one row
    and batches of three. *)
Definition gap_table : DataFrame num :=
  {| columns := ["close"%string];
     values := [[Num 1]; [Num 2]; [NaN]; [Num 4]; [Num 5]; [Num 6]; [Num 7]] |}.

Definition gap_cfg : Config :=
  {| batch_size := 3; x_window_size := 1; y_window_size := 1;
     y_col := "close"; filter_cols := None; normalize := false |}.

(** A table whose first cell is missing and which has room for two
    windows of one row only. *)
Definition edge_table : DataFrame num :=
  {| columns := ["close"%string];
     values := [[NaN]; [Num 1]; [Num 2]] |}.

(** Two rows: too few for one window of the scenario's configuration. *)
Definition tiny_table : DataFrame num := close_of [1%Z; 2%Z].

(** Two columns, of which the filter keeps one that is not [y_col]. *)
Definition two_column_table : DataFrame num :=
  {| columns := ["open"%string; "close"%string];
     values := [[Num 1; Num 2]; [Num 3; Num 4]; [Num 5; Num 6]] |}.

Definition open_only_cfg : Config :=
  {| batch_size := 1; x_window_size := 1; y_window_size := 1;
     y_col := "close"; filter_cols := Some ["open"%string]; normalize := false |}.

(** Six rows of two columns, scanned with input windows of two rows and
    targets over three rows, [close] being the second column. *)
Definition mean_table : DataFrame num :=
  {| columns := ["open"%string; "close"%string];
     values := [[Num 1; Num 2]; [Num 2; Num 4]; [Num 3; Num 6];
                [Num 4; Num 8]; [Num 5; Num 16]; [Num 6; Num 20]] |}.

Definition mean_cfg : Config :=
  {| batch_size := 2; x_window_size := 2; y_window_size := 3;
     y_col := "close"; filter_cols := None; normalize := true |}.

(** A container holding three windows and three targets. *)
Definition three_rows_h5 : H5File num :=
  {| h5_x := Some [[[Num 1]]; [[Num 2]]; [[Num 3]]];
     h5_y := Some [Num 2; Num 3; Num 4] |}.

(** A window of two rows and two columns. *)
Definition small_window : DataFrame num :=
  {| columns := ["open"%string; "close"%string];
     values := [[Num 2; Num 4]; [Num 3; Num 8]] |}.

(** [<=] on cells: false when a side is [NaN]. *)
Definition le (a b : num) : bool :=
  match a, b with
  | Num p, Num q => Qle_bool p q
  | _, _ => false
  end.

#[export] Instance num_order : CellOrder num := {|
  fle := le;
  fnan := NaN
|}.

(** The scenario's configuration with [batch_size = 0]. *)
Definition zero_batch_cfg : Config :=
  {| batch_size := 0; x_window_size := 3; y_window_size := 1;
     y_col := "close"; filter_cols := None; normalize := true |}.

(** Normalisation asked for with an input window of no row. *)
Definition no_input_cfg : Config :=
  {| batch_size := 2; x_window_size := 0; y_window_size := 1;
     y_col := "close"; filter_cols := None; normalize := true |}.

(** A table in which every window of one row and one target row has a
    missing cell. *)
Definition holes_table : DataFrame num :=
  {| columns := ["close"%string];
     values := [[Num 1]; [NaN]; [Num 3]; [NaN]; [Num 5]] |}.

(** The filter names [close] and a column the table does not have. *)
Definition close_only_cfg : Config :=
  {| batch_size := 1; x_window_size := 1; y_window_size := 1;
     y_col := "close"; filter_cols := Some ["volume"%string; "close"%string];
     normalize := false |}.

(** A window of three rows and two columns, one cell missing. *)
Definition ragged_min_window : DataFrame num :=
  {| columns := ["open"%string; "close"%string];
     values := [[Num 2; Num 9]; [Num 5; NaN]; [Num 3; Num 4]] |}.

End Exact.

(** * Properties *)

Section Facts.

Context {V : Type} `{Cell V}.

(** ** Lists *)

Lemma slice_length {A : Type} (lo hi : nat) (l : list A) :
  length (slice lo hi l) = Nat.min (hi - lo) (length l - lo).
Proof. unfold slice. rewrite length_firstn, length_skipn. reflexivity. Qed.

Lemma In_firstn_inv {A : Type} (n : nat) (l : list A) (a : A) :
  In a (firstn n l) -> In a l.
Proof.
  intros Ha. rewrite <- (firstn_skipn n l). apply in_or_app. now left.
Qed.

Lemma In_skipn_inv {A : Type} (n : nat) (l : list A) (a : A) :
  In a (skipn n l) -> In a l.
Proof.
  intros Ha. rewrite <- (firstn_skipn n l). apply in_or_app. now right.
Qed.

Lemma slice_incl {A : Type} (lo hi : nat) (l : list A) (a : A) :
  In a (slice lo hi l) -> In a l.
Proof.
  unfold slice. intros Ha. eapply In_skipn_inv, In_firstn_inv, Ha.
Qed.

Lemma existsb_false_incl {A : Type} (f : A -> bool) (l m : list A) :
  (forall a, In a m -> In a l) -> existsb f l = false -> existsb f m = false.
Proof.
  intros Hsub Hl. destruct (existsb f m) eqn:E; [| reflexivity].
  apply existsb_exists in E as (a & Ha & Hfa).
  assert (existsb f l = true) by (apply existsb_exists; eauto).
  congruence.
Qed.

Lemma slice_nonempty {A : Type} (lo hi : nat) (l : list A) :
  lo < hi -> hi <= length l ->
  exists a rest, slice lo hi l = a :: rest /\ nth_error l lo = Some a.
Proof.
  intros Hlt Hle. unfold slice.
  destruct (skipn lo l) as [| a rest] eqn:E.
  - apply skipn_all_iff in E. lia.
  - exists a.
    destruct (hi - lo) as [| n] eqn:En; [lia |].
    exists (firstn n rest). split; [reflexivity |].
    rewrite <- hd_error_skipn, E. reflexivity.
Qed.

Lemma zip_with_length {A B C : Type} (f : A -> B -> C) (l : list A) (m : list B) :
  length (zip_with f l m) = Nat.min (length l) (length m).
Proof.
  revert m. induction l as [| a l IH]; intros [| b m]; simpl; auto.
Qed.

Lemma select_incl {A : Type} (mask : list bool) (l : list A) (a : A) :
  In a (select mask l) -> In a l.
Proof.
  revert l. induction mask as [| b mask IH]; intros [| x l]; simpl; try tauto.
  - destruct b; simpl; tauto.
  - destruct b; simpl; intros Ha.
    + destruct Ha as [-> | Ha]; auto.
    + auto.
Qed.

Lemma select_length {A B : Type} (mask : list bool) (l : list A) (m : list B) :
  length l = length m -> length (select mask l) = length (select mask m).
Proof.
  revert l m. induction mask as [| b mask IH]; intros [| x l] [| y m]; simpl;
    try discriminate; auto.
  - destruct b; reflexivity.
  - intros [= Hlen]. destruct b; simpl; auto.
Qed.

(** ** Column lookup *)

Lemma index_In (x : string) (l : list string) :
  In x l -> exists k, index x l = Ok k.
Proof.
  induction l as [| c l IH]; simpl; [tauto |].
  intros Hin. destruct (String.eqb c x) eqn:E; [eauto |].
  destruct Hin as [-> | Hin]; [rewrite String.eqb_refl in E; discriminate |].
  destruct (IH Hin) as (k & ->). simpl. eauto.
Qed.

Lemma index_not_In (x : string) (l : list string) :
  ~ In x l -> index x l = Raise ValueError.
Proof.
  induction l as [| c l IH]; simpl; [reflexivity |].
  intros Hnin. destruct (String.eqb c x) eqn:E.
  - apply String.eqb_eq in E. tauto.
  - rewrite IH by tauto. reflexivity.
Qed.

Lemma index_Ok_lt (x : string) (l : list string) (k : nat) :
  index x l = Ok k -> k < length l.
Proof.
  revert k. induction l as [| c l IH]; simpl; intros k; [discriminate |].
  destruct (String.eqb c x); [intros [= <-]; lia |].
  destruct (index x l) as [n |]; simpl; [| discriminate].
  intros [= <-]. specialize (IH n eq_refl). lia.
Qed.

Lemma column_ok (k : nat) (m : matrix V) :
  (forall r, In r m -> k < length r) -> exists cells, column k m = Ok cells.
Proof.
  induction m as [| r m IH]; simpl; intros Hm; [eauto |].
  destruct (nth_error r k) as [v |] eqn:E.
  - destruct IH as (cells & ->); [auto |]. simpl. eauto.
  - apply nth_error_None in E. specialize (Hm r (or_introl eq_refl)). lia.
Qed.

(** ** Tables *)

Lemma well_formed_row (data : DataFrame V) (r : list V) :
  well_formed data = true -> In r (values data) ->
  length r = length (columns data).
Proof.
  unfold well_formed. intros Hwf Hin.
  rewrite forallb_forall in Hwf. apply Nat.eqb_eq, Hwf, Hin.
Qed.

Lemma has_null_false (data : DataFrame V) :
  has_null data = false <->
  (forall r v, In r (values data) -> In v r -> isnull v = false).
Proof.
  unfold has_null. split.
  - intros Hn r v Hr Hv.
    destruct (isnull v) eqn:E; [| reflexivity].
    assert (existsb (existsb isnull) (values data) = true); [| congruence].
    apply existsb_exists. exists r. split; [exact Hr |].
    apply existsb_exists. eauto.
  - intros Hall.
    destruct (existsb (existsb isnull) (values data)) eqn:E; [| reflexivity].
    apply existsb_exists in E as (r & Hr & E).
    apply existsb_exists in E as (v & Hv & E).
    rewrite (Hall r v Hr Hv) in E. discriminate.
Qed.

Lemma filter_columns_num_rows (fc : option (list string)) (csv : DataFrame V) :
  num_rows_of (filter_columns fc csv) = num_rows_of csv.
Proof.
  unfold filter_columns, num_rows_of.
  destruct fc as [[| c cs] |]; simpl; auto using length_map.
Qed.

Lemma filter_columns_well_formed (fc : option (list string)) (csv : DataFrame V) :
  well_formed csv = true -> well_formed (filter_columns fc csv) = true.
Proof.
  intros Hwf. unfold filter_columns.
  destruct fc as [[| c cs] |]; auto.
  unfold well_formed. simpl. apply forallb_forall. intros r' Hin.
  apply in_map_iff in Hin as (r & <- & Hr).
  apply Nat.eqb_eq, select_length, well_formed_row; assumption.
Qed.

Lemma filter_columns_null_free (fc : option (list string)) (csv : DataFrame V) :
  has_null csv = false -> has_null (filter_columns fc csv) = false.
Proof.
  intros Hn. unfold filter_columns.
  destruct fc as [[| c cs] |]; auto.
  rewrite has_null_false in *. simpl. intros r' v Hin Hv.
  apply in_map_iff in Hin as (r & <- & Hr).
  apply select_incl in Hv. eauto.
Qed.

(** A table without missing cells has no window with a missing cell. *)
Lemma null_free_windows (cfg : Config) (data : DataFrame V) (pos : nat) :
  has_null data = false -> window_has_null cfg data pos = false.
Proof.
  intros Hn. unfold window_has_null.
  assert (Hs : forall lo hi, has_null (rows lo hi data) = false).
  { intros lo hi. rewrite has_null_false in *. simpl. intros r v Hr Hv.
    apply slice_incl in Hr. eauto. }
  unfold x_window, y_window. rewrite !Hs. reflexivity.
Qed.

(** ** One iteration of the scan *)

Section LoopFacts.

Variable cfg : Config.
Variable data : DataFrame V.
Variable y_idx : nat.

Abbreviation body := (loop_body cfg data y_idx).
Abbreviation loop := (while_loop cfg data y_idx).
Abbreviation window_has_null := (window_has_null cfg data).

Lemma loop_body_rejects (st : gen_state V) :
  window_has_null (i st) = true ->
  body st = Ok ({| i := i st + 1; x_data := x_data st; y_data := y_data st |},
                Rejected).
Proof.
  unfold window_has_null, loop_body. intros ->. reflexivity.
Qed.

Lemma loop_body_rejected_inv (st st' : gen_state V) :
  body st = Ok (st', Rejected) ->
  window_has_null (i st) = true /\
  st' = {| i := i st + 1; x_data := x_data st; y_data := y_data st |}.
Proof.
  unfold window_has_null, loop_body.
  destruct (has_null _ || has_null _); [intros [= <-]; auto |].
  fold (model_windows cfg data (i st)).
  destruct (model_windows cfg data (i st)) as [[xw yw] |]; simpl; [| discriminate].
  destruct (column y_idx (values yw)); simpl; [| discriminate].
  destruct (batch_size cfg =? 0); [discriminate |].
  destruct (_ mod _ =? 0); discriminate.
Qed.

Lemma loop_body_accepted_inv (st st' : gen_state V) (x : matrix V) (y : V)
    (yielded : option (batch V)) :
  body st = Ok (st', Accepted x y yielded) ->
  window_has_null (i st) = false /\
  exists xw yw cells,
    model_windows cfg data (i st) = Ok (xw, yw) /\
    column y_idx (values yw) = Ok cells /\
    x = values xw /\ y = average cells /\
    batch_size cfg <> 0 /\
    i st' = i st + 1 /\
    (((i st + 1) mod batch_size cfg = 0 /\
      yielded = Some (x_data st ++ [x], y_data st ++ [y]) /\
      x_data st' = [] /\ y_data st' = [])
     \/
     ((i st + 1) mod batch_size cfg <> 0 /\
      yielded = None /\
      x_data st' = x_data st ++ [x] /\ y_data st' = y_data st ++ [y])).
Proof.
  unfold window_has_null, loop_body.
  destruct (has_null _ || has_null _); [discriminate |].
  fold (model_windows cfg data (i st)).
  destruct (model_windows cfg data (i st)) as [[xw yw] |]; simpl; [| discriminate].
  destruct (column y_idx (values yw)) as [cells |] eqn:Ec; simpl; [| discriminate].
  destruct (batch_size cfg =? 0) eqn:Eb; [discriminate |].
  apply Nat.eqb_neq in Eb.
  destruct (_ mod _ =? 0) eqn:Em; intros [= <- <- <- <-];
    (split; [reflexivity |]); exists xw, yw, cells; simpl;
    do 6 (split; [solve [auto] |]).
  - left. apply Nat.eqb_eq in Em. auto.
  - right. apply Nat.eqb_neq in Em. auto.
Qed.

(** Every iteration that completes moves [i] one row forward. *)
Lemma loop_body_advances (st st' : gen_state V) (o : step_outcome V) :
  body st = Ok (st', o) -> i st' = i st + 1.
Proof.
  destruct o as [| x y e]; intros Hb.
  - apply loop_body_rejected_inv in Hb as [_ ->]. reflexivity.
  - apply loop_body_accepted_inv in Hb
      as (_ & xw & yw & cells & _ & _ & _ & _ & _ & Hi & _).
    exact Hi.
Qed.

(** ** The whole scan *)

(** Properties of single iterations carry over to every entry of a trace. *)
Lemma while_loop_Forall (P : gen_state V -> Prop) (Q : nat * step_outcome V -> Prop) :
  (forall st st' o,
      P st -> in_range cfg data st = true -> body st = Ok (st', o) ->
      P st' /\ Q (i st, o)) ->
  forall fuel st tr t, P st -> loop fuel st = (tr, t) -> Forall Q tr.
Proof.
  intros Hstep. induction fuel as [| fuel IH]; simpl; intros st tr t HP.
  - intros [= <- <-]. constructor.
  - destruct (in_range cfg data st) eqn:Er; [| intros [= <- <-]; constructor].
    destruct (body st) as [[st' o] |] eqn:Eb; [| intros [= <- <-]; constructor].
    destruct (loop fuel st') as [tr' t'] eqn:El. intros [= <- <-].
    destruct (Hstep st st' o HP Er Eb) as [HP' HQ].
    constructor; [exact HQ | eauto].
Qed.

(** The scan visits consecutive row indices: none twice, none skipped. *)
Lemma while_loop_positions (fuel : nat) (st : gen_state V)
    (tr : list (nat * step_outcome V)) (t : termination) :
  loop fuel st = (tr, t) -> map fst tr = seq (i st) (length tr).
Proof.
  revert st tr t. induction fuel as [| fuel IH]; simpl; intros st tr t.
  - intros [= <- <-]. reflexivity.
  - destruct (in_range cfg data st); [| intros [= <- <-]; reflexivity].
    destruct (body st) as [[st' o] |] eqn:Eb; [| intros [= <- <-]; reflexivity].
    destruct (loop fuel st') as [tr' t'] eqn:El. intros [= <- <-].
    simpl. f_equal. rewrite (IH _ _ _ El).
    rewrite (loop_body_advances _ _ _ Eb). f_equal. lia.
Qed.

(** The fuel given by [clean_data_trace] is never used up. *)
Lemma while_loop_fuel (fuel : nat) (st : gen_state V) :
  i st <= num_rows_of data + 1 ->
  num_rows_of data + 2 <= fuel + i st ->
  snd (loop fuel st) <> OutOfFuel.
Proof.
  revert st. induction fuel as [| fuel IH]; simpl; intros st Hi Hf; [lia |].
  destruct (in_range cfg data st) eqn:Er; [| discriminate].
  destruct (body st) as [[st' o] |] eqn:Eb; [| discriminate].
  apply loop_body_advances in Eb.
  unfold in_range in Er. apply Nat.leb_le in Er.
  specialize (IH st'). destruct (loop fuel st') as [tr' t']. simpl in *.
  apply IH; lia.
Qed.

(** Everything appended to the accumulators is either yielded or still
    held when the scan stops. *)
Lemma while_loop_accounting (fuel : nat) (st : gen_state V)
    (tr : list (nat * step_outcome V)) (t : termination) :
  loop fuel st = (tr, t) ->
  exists left_x left_y,
    x_data st ++ map (fun p => fst (snd p)) (accepted tr)
      = concat (map fst (yields tr)) ++ left_x /\
    y_data st ++ map (fun p => snd (snd p)) (accepted tr)
      = concat (map snd (yields tr)) ++ left_y /\
    length left_x < length (x_data st) + length (accepted tr) + 1.
Proof.
  revert st tr t. induction fuel as [| fuel IH]; simpl; intros st tr t.
  - intros [= <- <-]. exists (x_data st), (y_data st). simpl.
    rewrite !app_nil_r. repeat split; lia.
  - destruct (in_range cfg data st);
      [| intros [= <- <-]; exists (x_data st), (y_data st); simpl;
         rewrite !app_nil_r; repeat split; lia].
    destruct (body st) as [[st' o] |] eqn:Eb;
      [| intros [= <- <-]; exists (x_data st), (y_data st); simpl;
         rewrite !app_nil_r; repeat split; lia].
    destruct (loop fuel st') as [tr' t'] eqn:El. intros [= <- <-].
    destruct (IH _ _ _ El) as (lx & ly & Hx & Hy & Hl).
    destruct o as [| x y e].
    + apply loop_body_rejected_inv in Eb as [_ ->]. simpl in *.
      exists lx, ly. auto.
    + apply loop_body_accepted_inv in Eb
        as (_ & xw & yw & cells & _ & _ & _ & _ & _ & _ & Hcase).
      destruct Hcase as [(_ & -> & Hx' & Hy') | (_ & -> & Hx' & Hy')];
        rewrite Hx' in *; rewrite Hy' in Hy; simpl in *.
      * exists lx, ly. rewrite <- !app_assoc. simpl. rewrite Hx, Hy.
        repeat split; lia.
      * exists lx, ly. rewrite <- !app_assoc in Hx, Hy. simpl in *.
        rewrite length_app in Hl. simpl in Hl.
        repeat split; auto; lia.
Qed.

End LoopFacts.

(** ** The code's operations and the specification's words *)

Lemma slice_firstn_skipn {A : Type} (lo n : nat) (l : list A) :
  slice lo (lo + n) l = firstn n (skipn lo l).
Proof.
  unfold slice. replace (lo + n - lo) with n by lia. reflexivity.
Qed.

(** [np.average] sums from the left, which is the sum of the
    specification. *)
Lemma average_is_mean (cells : list V) : average cells = mean_by_spec cells.
Proof.
  unfold average, mean_by_spec. f_equal.
  assert (Hsum : forall l, sum_last_first l
                           = fold_right (fun v acc => fadd acc v) fzero l).
  { induction l as [| v l IH]; simpl; [| rewrite IH]; reflexivity. }
  rewrite Hsum, fold_left_rev_right. reflexivity.
Qed.

(** Dividing a row by the base and subtracting one, in two passes as the
    code does, puts the row on the scale of the base. *)
Lemma on_base_zip_with (base r : list V) :
  map (fun v => fsub v fone) (zip_with fdiv r base) = on_base base r.
Proof.
  unfold on_base. revert base.
  induction r as [| c r IH]; intros [| b base]; simpl; try reflexivity.
  rewrite IH. reflexivity.
Qed.

(** In a row with one cell per column, the cell at the position found by
    [list.index] is the cell under the column of that name. *)
Lemma cell_named_index (cols : list string) (name : string) (k : nat)
    (r : list V) :
  index name cols = Ok k ->
  length r = length cols ->
  cell_named cols name r = nth_error r k.
Proof.
  unfold cell_named. revert k r.
  induction cols as [| c cols IH]; intros k [| v r]; simpl; try discriminate.
  destruct (String.eqb c name); [intros [= <-] _; reflexivity |].
  destruct (index name cols) as [k' |] eqn:Ek; simpl; [| discriminate].
  intros [= <-] [= Hlen]. simpl. apply (IH k' r eq_refl Hlen).
Qed.

Lemma column_named (cols : list string) (name : string) (k : nat)
    (m : matrix V) (cells : list V) :
  index name cols = Ok k ->
  (forall r, In r m -> length r = length cols) ->
  column k m = Ok cells ->
  all_present (map (cell_named cols name) m) = Some cells.
Proof.
  intros Hk. revert cells.
  induction m as [| r m IH]; simpl; intros cells Hlen.
  - intros [= <-]. reflexivity.
  - rewrite (cell_named_index cols name k r Hk (Hlen r (or_introl eq_refl))).
    destruct (nth_error r k) as [v |]; [| discriminate].
    destruct (column k m) as [vs |]; simpl; [| discriminate].
    intros [= <-]. rewrite (IH vs); auto.
Qed.

(** ** The windows handed to the averaging step *)

Section WindowFacts.

Variable cfg : Config.
Variable data : DataFrame V.
Variable k : nat.

Hypothesis data_wf : well_formed data = true.
Hypothesis k_is_y_col : index (y_col cfg) (columns data) = Ok k.

Lemma row_not_empty (r : list V) : In r (values data) -> empty (Series r) = false.
Proof.
  intros Hr. simpl. apply Nat.eqb_neq.
  rewrite (well_formed_row _ _ data_wf Hr).
  apply index_Ok_lt in k_is_y_col. lia.
Qed.

(** The code's two calls of [zero_base_standardize], its positional
    column lookup and its [np.average] compute what the specification
    describes. *)
Lemma model_windows_target (pos : nat) (xw yw : DataFrame V) (cells : list V) :
  model_windows cfg data pos = Ok (xw, yw) ->
  column k (values yw) = Ok cells ->
  target_by_spec cfg data pos = Some (average cells).
Proof.
  unfold target_by_spec, model_windows.
  rewrite <- !slice_firstn_skipn.
  assert (Hrows : forall lo hi r, In r (slice lo hi (values data)) ->
                                  length r = length (columns data)).
  { intros lo hi r Hr. apply slice_incl in Hr.
    apply (well_formed_row _ _ data_wf Hr). }
  destruct (normalize cfg).
  - unfold zero_base_standardize at 1. simpl empty. cbv iota.
    unfold iloc0, x_window, rows. simpl values.
    destruct (slice pos (pos + x_window_size cfg) (values data))
      as [| r rest] eqn:Es; [discriminate |].
    assert (Hr : In r (values data)).
    { apply (slice_incl pos (pos + x_window_size cfg)). rewrite Es. now left. }
    simpl bind. unfold zero_base_standardize. rewrite (row_not_empty r Hr).
    simpl bind. intros [= <- <-].
    unfold frame_sub_scalar, frame_div, y_window, rows. cbn [values].
    rewrite map_map. intros Hc.
    rewrite (map_ext _ (on_base r) (fun r' => on_base_zip_with r r')) in Hc.
    rewrite (column_named (columns data) (y_col cfg) k _ cells k_is_y_col); auto.
    + rewrite average_is_mean. reflexivity.
    + intros r' Hr'. apply in_map_iff in Hr' as (r0 & <- & Hr0).
      unfold on_base. rewrite length_map, length_combine.
      rewrite (Hrows _ _ _ Hr0), (well_formed_row _ _ data_wf Hr). lia.
  - intros [= <- <-]. unfold y_window, rows. cbn [values]. intros Hc.
    rewrite (column_named (columns data) (y_col cfg) k _ cells k_is_y_col); auto.
    + rewrite average_is_mean. reflexivity.
    + intros r' Hr'. apply (Hrows _ _ _ Hr').
Qed.

(** On a window without missing cells, inside the table, nothing raises
    up to the averaging step. *)
Lemma model_windows_ok (pos : nat) :
  0 < x_window_size cfg ->
  pos + x_window_size cfg + y_window_size cfg <= num_rows_of data ->
  exists xw yw cells,
    model_windows cfg data pos = Ok (xw, yw) /\
    column k (values yw) = Ok cells.
Proof.
  intros Hx Hin. unfold model_windows.
  pose proof (index_Ok_lt _ _ _ k_is_y_col) as Hk.
  destruct (normalize cfg).
  - unfold zero_base_standardize at 1. simpl empty. cbv iota.
    unfold iloc0, x_window, rows. simpl values.
    destruct (slice_nonempty pos (pos + x_window_size cfg) (values data))
      as (r & rest & Es & Hnth); [lia | unfold num_rows_of in Hin; lia |].
    rewrite Es. simpl bind.
    assert (Hr : In r (values data)) by (eapply nth_error_In; eauto).
    unfold zero_base_standardize. rewrite (row_not_empty r Hr). simpl.
    destruct (column_ok k
      (map (map (fun v => fsub v fone))
         (map (fun r0 => zip_with fdiv r0 r)
            (slice (pos + x_window_size cfg)
               (pos + x_window_size cfg + y_window_size cfg) (values data)))))
      as (cells & Hc).
    { intros r' Hin'. apply in_map_iff in Hin' as (r1 & <- & Hin').
      apply in_map_iff in Hin' as (r2 & <- & Hin').
      apply slice_incl in Hin'.
      rewrite length_map, zip_with_length.
      rewrite (well_formed_row _ _ data_wf Hin'), (well_formed_row _ _ data_wf Hr).
      lia. }
    eexists _, _, cells. split; [reflexivity | exact Hc].
  - destruct (column_ok k (values (y_window cfg data pos))) as (cells & Hc).
    { intros r' Hin'. apply slice_incl in Hin'.
      rewrite (well_formed_row _ _ data_wf Hin'). lia. }
    eexists _, _, cells. split; [reflexivity | exact Hc].
Qed.

Lemma loop_body_accepts (st : gen_state V) :
  0 < x_window_size cfg ->
  0 < batch_size cfg ->
  in_range cfg data st = true ->
  window_has_null cfg data (i st) = false ->
  exists st' x y yielded,
    loop_body cfg data k st = Ok (st', Accepted x y yielded).
Proof.
  intros Hx Hb Hr Hn. unfold in_range in Hr. apply Nat.leb_le in Hr.
  destruct (model_windows_ok (i st) Hx Hr) as (xw & yw & cells & Hm & Hc).
  unfold loop_body. unfold window_has_null in Hn. rewrite Hn.
  fold (model_windows cfg data (i st)). rewrite Hm. simpl. rewrite Hc. simpl.
  destruct (batch_size cfg =? 0) eqn:Eb; [apply Nat.eqb_eq in Eb; lia |].
  destruct (_ mod _ =? 0); eauto.
Qed.

End WindowFacts.

(** ** The generator as a whole *)

Lemma clean_data_trace_terminates (cfg : Config) (csv : DataFrame V) :
  snd (clean_data_trace cfg csv) <> OutOfFuel.
Proof.
  unfold clean_data_trace.
  destruct (index _ _) as [k |]; simpl; [| discriminate].
  apply while_loop_fuel; simpl; lia.
Qed.

Lemma clean_data_yields (cfg : Config) (csv : DataFrame V) :
  clean_data cfg csv =
  (yields (fst (clean_data_trace cfg csv)), snd (clean_data_trace cfg csv)).
Proof.
  unfold clean_data. destruct (clean_data_trace cfg csv). reflexivity.
Qed.

Lemma accepted_In (tr : list (nat * step_outcome V)) (pos : nat)
    (x : matrix V) (y : V) :
  In (pos, (x, y)) (accepted tr) ->
  exists yielded, In (pos, Accepted x y yielded) tr.
Proof.
  induction tr as [| [p [| x' y' e]] tr IH]; simpl; [tauto | |].
  - intros Hin. destruct (IH Hin) as (e & He). eauto.
  - intros [[= -> -> ->] | Hin]; [eauto |].
    destruct (IH Hin) as (e' & He). eauto.
Qed.

(** With every window accepted, the scan runs to the end of the table and
    accepts one window per remaining position. *)
Lemma while_loop_null_free (cfg : Config) (data : DataFrame V) (k : nat) :
  well_formed data = true ->
  index (y_col cfg) (columns data) = Ok k ->
  has_null data = false ->
  0 < x_window_size cfg ->
  0 < batch_size cfg ->
  forall fuel st,
    i st <= num_rows_of data + 1 ->
    num_rows_of data + 2 <= fuel + i st ->
    snd (while_loop cfg data k fuel st) = Exhausted /\
    length (accepted (fst (while_loop cfg data k fuel st))) =
    num_rows_of data + 1 - (x_window_size cfg + y_window_size cfg) - i st.
Proof.
  intros Hwf Hk Hn Hx Hb.
  induction fuel as [| fuel IH]; simpl; intros st Hi Hf; [lia |].
  destruct (in_range cfg data st) eqn:Er.
  - destruct (loop_body_accepts cfg data k Hwf Hk st Hx Hb Er
                (null_free_windows cfg data (i st) Hn))
      as (st' & x & y & e & Hbody).
    rewrite Hbody.
    pose proof (loop_body_advances _ _ _ _ _ _ Hbody) as Hadv.
    unfold in_range in Er. apply Nat.leb_le in Er.
    destruct (IH st') as [Ht Hlen]; [lia | lia |].
    destruct (while_loop cfg data k fuel st') as [tr t]. simpl in *.
    split; [exact Ht |]. rewrite Hlen. lia.
  - unfold in_range in Er. apply Nat.leb_gt in Er. simpl.
    split; [reflexivity | lia].
Qed.

(** C2.  On a table without missing cells (with the target column
    present, a positive batch size and a positive input window), the scan
    runs to the end of the table and accepts exactly
    [num_rows - x_window_size - y_window_size + 1] windows when
    [x_window_size + y_window_size <= num_rows], and none otherwise. *)
Theorem null_free_table_accepted_count (cfg : Config) (csv : DataFrame V) :
  has_null csv = false ->
  well_formed csv = true ->
  In (y_col cfg) (columns (filter_columns (filter_cols cfg) csv)) ->
  0 < batch_size cfg ->
  0 < x_window_size cfg ->
  snd (clean_data_trace cfg csv) = Exhausted /\
  length (accepted (fst (clean_data_trace cfg csv))) =
  if x_window_size cfg + y_window_size cfg <=? num_rows_of csv
  then num_rows_of csv - x_window_size cfg - y_window_size cfg + 1
  else 0.
Proof.
  intros Hn Hwf Hin Hb Hx. unfold clean_data_trace.
  destruct (index_In _ _ Hin) as (k & Hk). rewrite Hk.
  destruct (while_loop_null_free cfg (filter_columns (filter_cols cfg) csv) k
              (filter_columns_well_formed _ _ Hwf) Hk
              (filter_columns_null_free _ _ Hn) Hx Hb
              (num_rows_of (filter_columns (filter_cols cfg) csv) + 2)
              initial_state) as [Ht Hlen]; simpl; try lia.
  split; [exact Ht |]. rewrite Hlen. simpl.
  rewrite filter_columns_num_rows.
  destruct (x_window_size cfg + y_window_size cfg <=? num_rows_of csv) eqn:E.
  - apply Nat.leb_le in E. lia.
  - apply Nat.leb_gt in E. lia.
Qed.

(** C3.  On a well-formed table, the target recorded for every accepted
    window is the arithmetic mean (the sum of the cells divided by their
    number, [mean_by_spec]) of the cells under the column named [y_col]
    in the [y_window_size] rows that follow the input window, those rows
    being first divided by the first row of the input window (and
    decreased by one) when [normalize] is set; and the targets yielded in
    batches are, in order, the targets of the accepted windows, up to
    those still held when the scan stops.  [target_by_spec] is written
    from the specification and shares no definition with the code's
    [average], [column], [index] or [zero_base_standardize]. *)
Theorem target_is_mean_over_following_rows (cfg : Config) (csv : DataFrame V) :
  well_formed csv = true ->
  let data := filter_columns (filter_cols cfg) csv in
  let tr := fst (clean_data_trace cfg csv) in
  (forall pos x y,
      In (pos, (x, y)) (accepted tr) -> target_by_spec cfg data pos = Some y) /\
  (exists left_y,
      map (fun p => snd (snd p)) (accepted tr) =
      concat (map snd (fst (clean_data cfg csv))) ++ left_y).
Proof.
  intros Hwf data tr.
  assert (Hdwf : well_formed data = true) by (apply filter_columns_well_formed, Hwf).
  rewrite clean_data_yields. fold tr. simpl fst.
  subst tr. unfold clean_data_trace. fold data.
  destruct (index (y_col cfg) (columns data)) as [k |] eqn:Hk; simpl.
  2:{ split; [tauto | exists []; reflexivity]. }
  destruct (while_loop cfg data k (num_rows_of data + 2) initial_state)
    as [tr t] eqn:El. simpl. split.
  - assert (HF : Forall (fun p =>
        match snd p with
        | Accepted _ y _ => target_by_spec cfg data (fst p) = Some y
        | Rejected => True
        end) tr).
    { apply (while_loop_Forall cfg data k (fun _ => True)) with (3 := El); [| exact I].
      intros st st' o _ _ Hb. split; [exact I |]. simpl.
      destruct o as [| x y e]; [exact I |].
      apply loop_body_accepted_inv in Hb
        as (_ & xw & yw & cells & Hm & Hc & _ & -> & _).
      eapply model_windows_target; eauto. }
    intros pos x y Hin. apply accepted_In in Hin as (e & Hin).
    rewrite Forall_forall in HF. exact (HF _ Hin).
  - destruct (while_loop_accounting _ _ _ _ _ _ _ El) as (lx & ly & _ & Hy & _).
    exists ly. exact Hy.
Qed.

(** C4.  A scan position whose input window or target window holds a
    missing cell leaves both accumulators as they were and yields
    nothing, and moves the scan index forward by exactly one row, as
    every completed iteration does; in a whole scan such a position is
    recorded as rejected, a rejected iteration adds nothing to the pairs
    accepted or to the batches yielded, and the positions visited are
    0, 1, 2, ... in order, so that no row index is visited twice or
    passed over. *)
Theorem nan_window_rejected_scan_advances_one (cfg : Config) (csv : DataFrame V) :
  let data := filter_columns (filter_cols cfg) csv in
  let tr := fst (clean_data_trace cfg csv) in
  (forall y_idx st,
      window_has_null cfg data (i st) = true ->
      loop_body cfg data y_idx st =
      Ok ({| i := i st + 1; x_data := x_data st; y_data := y_data st |}, Rejected)) /\
  (forall y_idx st st' o,
      loop_body cfg data y_idx st = Ok (st', o) -> i st' = i st + 1) /\
  (forall pos o,
      In (pos, o) tr -> window_has_null cfg data pos = true -> o = Rejected) /\
  (forall pos (tr' : list (nat * step_outcome V)),
      accepted ((pos, Rejected) :: tr') = accepted tr' /\
      yields ((pos, Rejected) :: tr') = yields tr') /\
  map fst tr = seq 0 (length tr).
Proof.
  intros data tr. split; [| split; [| split; [| split]]].
  - intros y_idx st. apply loop_body_rejects.
  - intros y_idx st st' o. apply loop_body_advances.
  - subst tr. unfold clean_data_trace. fold data.
    destruct (index (y_col cfg) (columns data)) as [k |]; simpl; [| tauto].
    destruct (while_loop cfg data k (num_rows_of data + 2) initial_state)
      as [tr t] eqn:El.
    assert (HF : Forall (fun p => window_has_null cfg data (fst p) = true ->
                                  snd p = Rejected) tr).
    { apply (while_loop_Forall cfg data k (fun _ => True)) with (3 := El); [| exact I].
      intros st st' o _ _ Hb. split; [exact I |]. simpl.
      destruct o as [| x y e]; [reflexivity |].
      apply loop_body_accepted_inv in Hb as [Hn _]. congruence. }
    simpl. intros pos o Hin. rewrite Forall_forall in HF. exact (HF _ Hin).
  - intros pos tr'. split; reflexivity.
  - subst tr. unfold clean_data_trace. fold data.
    destruct (index (y_col cfg) (columns data)) as [k |]; simpl; [| reflexivity].
    destruct (while_loop cfg data k (num_rows_of data + 2) initial_state)
      as [tr t] eqn:El.
    apply while_loop_positions in El. exact El.
Qed.

(** C7.  When [y_col] is not a column of the table left by the column
    filter, the generator raises the lookup error of line 34 (the
    specification's ConfigurationError) at its first pull: no batch is
    yielded, and the writer passes the same error to its caller. *)
Theorem missing_y_col_raises_before_any_batch (cfg : Config) (csv : DataFrame V)
    (disk : option (H5File V)) :
  ~ In (y_col cfg) (columns (filter_columns (filter_cols cfg) csv)) ->
  clean_data cfg csv = ([], Raised ValueError) /\
  fst (create_clean_datafile cfg csv disk) = Raise ValueError.
Proof.
  intros Hnin.
  assert (E : clean_data cfg csv = ([], Raised ValueError)).
  { unfold clean_data, clean_data_trace.
    rewrite (index_not_In _ _ Hnin). reflexivity. }
  split; [exact E |].
  unfold create_clean_datafile. rewrite E. reflexivity.
Qed.

(** C10.  A supplied base that is empty is treated exactly as the default
    argument: the base is taken anew from the first row of the window
    (and the call fails as the default one does when the window has no
    row); a supplied base that is not empty is the one divided by and the
    one returned. *)
Theorem zero_base_standardize_base_choice (data : DataFrame V)
    (b b' : pandas_obj V) :
  empty b = true ->
  empty b' = false ->
  zero_base_standardize data b = zero_base_standardize data default_abs_base /\
  (forall r rest,
      values data = r :: rest ->
      zero_base_standardize data b =
      Ok (Series r, frame_sub_scalar (frame_div data (Series r)) fone)) /\
  (values data = [] -> zero_base_standardize data b = Raise IndexError) /\
  zero_base_standardize data b' =
  Ok (b', frame_sub_scalar (frame_div data b') fone).
Proof.
  intros Hb Hb'. unfold zero_base_standardize. rewrite Hb, Hb'.
  split; [reflexivity |]. split; [| split; [| reflexivity]].
  - intros r rest E. unfold iloc0.
    destruct (values data) as [| r0 rest0]; [discriminate |].
    injection E as -> ->. reflexivity.
  - intros E. unfold iloc0. rewrite E. reflexivity.
Qed.

(** ** The writer *)

Lemma create_dataset_length {A : Type} (fill : A) (n : nat) :
  length (create_dataset fill n) = n.
Proof. apply repeat_length. Qed.

Lemma resize_length {A : Type} (fill : A) (n : nat) (dset : list A) :
  length (resize fill n dset) = n.
Proof.
  unfold resize. rewrite length_app, length_firstn, repeat_length. lia.
Qed.

Lemma resize_extends {A : Type} (fill : A) (m n : nat) (dset : list A) :
  length dset = m -> firstn m (resize fill (m + n) dset) = dset.
Proof.
  intros <-. unfold resize. rewrite (firstn_all2 dset) by lia.
  rewrite firstn_app, firstn_all, Nat.sub_diag. simpl. apply app_nil_r.
Qed.

Lemma assign_from_fit {A : Type} (lo : nat) (new dset : list A) :
  length dset = lo + length new ->
  assign_from lo new dset = firstn lo dset ++ new.
Proof.
  intros Hlen. unfold assign_from.
  rewrite skipn_all2 by lia. rewrite app_nil_r. reflexivity.
Qed.

(** What the generator yields pairs each window with one target. *)
Lemma yields_balanced (cfg : Config) (csv : DataFrame V) :
  Forall (fun b : batch V => length (fst b) = length (snd b))
         (fst (clean_data cfg csv)).
Proof.
  rewrite clean_data_yields. simpl. unfold clean_data_trace.
  destruct (index _ _) as [k |]; simpl; [| constructor].
  destruct (while_loop _ _ _ _ _) as [tr t] eqn:El. simpl.
  assert (HF : Forall (fun p : nat * step_outcome V =>
      match snd p with
      | Accepted _ _ (Some b) => length (fst b) = length (snd b)
      | _ => True
      end) tr).
  { apply (while_loop_Forall _ _ _
             (fun st => length (x_data st) = length (y_data st)))
      with (3 := El); [| reflexivity].
    intros st st' o HP _ Hb. destruct o as [| x y e].
    - apply loop_body_rejected_inv in Hb as [_ ->]. simpl. auto.
    - apply loop_body_accepted_inv in Hb
        as (_ & xw & yw & cells & _ & _ & _ & _ & _ & _ & Hcase).
      destruct Hcase as [(_ & -> & -> & ->) | (_ & -> & -> & ->)]; simpl;
        rewrite ?length_app; simpl; split; auto; lia. }
  clear El. induction tr as [| [pos [| x y [b |]]] tr IH]; simpl;
    inversion HF; subst; auto.
Qed.

Lemma writer_init_stored (b1 : batch V) : stored [b1] (writer_init b1).
Proof.
  destruct b1 as [x1 y1]. unfold stored, writer_init. simpl.
  rewrite !app_nil_r.
  rewrite !assign_from_fit
    by (rewrite create_dataset_length, ?length_map; reflexivity).
  simpl. auto.
Qed.

Lemma writer_append_stored (done : list (batch V)) (w : writer_state V)
    (b : batch V) :
  stored done w -> stored (done ++ [b]) (writer_append w b).
Proof.
  destruct b as [xb yb]. intros (Hx & Hy & Hcx & Hcy).
  assert (Lx : length (dset_x w) = rcount_x w)
    by (rewrite Hx, Hcx, !length_map; reflexivity).
  assert (Ly : length (dset_y w) = rcount_y w)
    by (rewrite Hy, Hcy, !length_map; reflexivity).
  unfold stored, writer_append. simpl.
  rewrite !map_app, !concat_app. simpl. rewrite !app_nil_r.
  rewrite !assign_from_fit by (rewrite resize_length, ?length_map; reflexivity).
  rewrite !resize_extends by assumption.
  rewrite !map_app, !length_app, Hx, Hy, Hcx, Hcy. auto.
Qed.

Lemma writer_loop_stored (rest done : list (batch V)) (w : writer_state V) :
  stored done w ->
  forall m w', nth_error (writer_loop w rest) m = Some w' ->
    stored (done ++ firstn (S m) rest) w'.
Proof.
  revert done w. induction rest as [| b rest IH]; simpl; intros done w Hs m w'.
  - destruct m; discriminate.
  - destruct m as [| m]; simpl.
    + intros [= <-]. apply writer_append_stored, Hs.
    + intros Hnth.
      specialize (IH (done ++ [b]) (writer_append w b)
                     (writer_append_stored _ _ _ Hs) m w' Hnth).
      rewrite <- app_assoc in IH. exact IH.
Qed.

Lemma writer_states_stored (b1 : batch V) (rest : list (batch V)) (m : nat)
    (w : writer_state V) :
  nth_error (writer_states b1 rest) m = Some w ->
  stored (firstn (S m) (b1 :: rest)) w.
Proof.
  unfold writer_states. destruct m as [| m]; simpl.
  - intros [= <-]. apply writer_init_stored.
  - intros Hnth.
    apply (writer_loop_stored rest [b1] _ (writer_init_stored b1) m w Hnth).
Qed.

Lemma last_cons {A : Type} (a d : A) (l : list A) : last (a :: l) d = last l a.
Proof.
  revert a d. induction l as [| b l IH]; intros a d; [reflexivity |].
  change (last (a :: b :: l) d) with (last (b :: l) d).
  rewrite !IH. reflexivity.
Qed.

Lemma writer_loop_last (rest done : list (batch V)) (w : writer_state V) :
  stored done w -> stored (done ++ rest) (last (writer_loop w rest) w).
Proof.
  revert done w. induction rest as [| b rest IH]; intros done w Hs.
  - simpl. rewrite app_nil_r. exact Hs.
  - simpl writer_loop. rewrite last_cons.
    specialize (IH (done ++ [b]) _ (writer_append_stored _ _ b Hs)).
    rewrite <- app_assoc in IH. exact IH.
Qed.

Lemma writer_states_last (b1 : batch V) (rest : list (batch V)) :
  stored (b1 :: rest) (last (writer_states b1 rest) (writer_init b1)).
Proof.
  unfold writer_states. rewrite last_cons.
  apply (writer_loop_last rest [b1]), writer_init_stored.
Qed.

Lemma writer_loop_length (rest : list (batch V)) (w : writer_state V) :
  length (writer_loop w rest) = length rest.
Proof.
  revert w. induction rest as [| b rest IH]; intros w; simpl; [| rewrite IH];
    reflexivity.
Qed.

Lemma balanced_concat (done : list (batch V)) :
  Forall (fun b : batch V => length (fst b) = length (snd b)) done ->
  length (concat (map fst done)) = length (concat (map snd done)).
Proof.
  induction 1 as [| b done Hb _ IH]; simpl; [reflexivity |].
  rewrite !length_app. congruence.
Qed.

(** C9.  For the batches the generator yields, after the initial write
    and after each append of the writer the running row count of [x]
    equals the running row count of [y] (and each is the length of its
    dataset); the container left by the writer is the one of the last of
    these states. *)
Theorem writer_row_counts_agree (cfg : Config) (csv : DataFrame V)
    (disk : option (H5File V)) (b1 : batch V) (rest : list (batch V))
    (t : termination) :
  clean_data cfg csv = (b1 :: rest, t) ->
  Forall (fun w => rcount_x w = rcount_y w /\
                   length (dset_x w) = rcount_x w /\
                   length (dset_y w) = rcount_y w)
         (writer_states b1 rest) /\
  length (writer_states b1 rest) = length (b1 :: rest) /\
  snd (create_clean_datafile cfg csv disk) =
  Some (h5_of (last (writer_states b1 rest) (writer_init b1))).
Proof.
  intros Hgen. split; [| split].
  - apply Forall_forall. intros w Hin.
    apply In_nth_error in Hin as (m & Hm).
    destruct (writer_states_stored _ _ _ _ Hm) as (Hx & Hy & Hcx & Hcy).
    pose proof (yields_balanced cfg csv) as Hbal. rewrite Hgen in Hbal. simpl in Hbal.
    assert (Hpre : Forall (fun b : batch V => length (fst b) = length (snd b))
                          (firstn (S m) (b1 :: rest))).
    { apply Forall_forall. intros b Hb. apply In_firstn_inv in Hb.
      rewrite Forall_forall in Hbal. auto. }
    apply balanced_concat in Hpre.
    rewrite Hx, Hy, !length_map, Hcx, Hcy.
    split; [exact Hpre | split; reflexivity].
  - unfold writer_states. simpl. f_equal.
    apply writer_loop_length.
  - unfold create_clean_datafile. rewrite Hgen. reflexivity.
Qed.

(** ** The reader *)

Lemma slice_past_end {A : Type} (lo hi : nat) (l : list A) :
  length l <= lo -> slice lo hi l = [].
Proof.
  intros Hle. unfold slice. rewrite skipn_all2 by exact Hle. apply firstn_nil.
Qed.

Lemma generate_clean_data_nth (cfg : Config) (hf : H5File V)
    (xs : list (matrix V)) (ys : list V) (n start : nat) :
  h5_x hf = Some xs -> h5_y hf = Some ys ->
  generate_clean_data cfg (Some hf) start n =
  Ok (slice (start + n * batch_size cfg)
            (start + n * batch_size cfg + batch_size cfg) xs,
      slice (start + n * batch_size cfg)
            (start + n * batch_size cfg + batch_size cfg) ys).
Proof.
  intros Hx Hy. revert start.
  induction n as [| n IH]; intros start; simpl;
    unfold generate_clean_data_step; rewrite Hx, Hy; simpl.
  - rewrite Nat.add_0_r. reflexivity.
  - rewrite IH.
    replace (start + batch_size cfg + n * batch_size cfg)
      with (start + (batch_size cfg + n * batch_size cfg)) by lia.
    reflexivity.
Qed.

(** C6.  On a container that holds both arrays, the [n]-th pull of the
    reader started at [start] succeeds for every [n] and returns the
    slices from [start + n * batch_size] up to (not including)
    [start + (n + 1) * batch_size] of the two arrays, the offset then
    growing by [batch_size]; there is no bounds check: at or past the end
    of an array its slice is empty, a slice never has more than
    [batch_size] entries, and no error is raised. *)
Theorem reader_nth_pull_is_slice_no_bounds_check (cfg : Config) (hf : H5File V)
    (xs : list (matrix V)) (ys : list V) (start n : nat) :
  h5_x hf = Some xs ->
  h5_y hf = Some ys ->
  let lo := start + n * batch_size cfg in
  let hi := start + (n + 1) * batch_size cfg in
  generate_clean_data cfg (Some hf) start n = Ok (slice lo hi xs, slice lo hi ys) /\
  generate_clean_data_step cfg (Some hf) lo = Ok ((slice lo hi xs, slice lo hi ys), hi) /\
  (length xs <= lo -> slice lo hi xs = []) /\
  (length ys <= lo -> slice lo hi ys = []) /\
  length (slice lo hi xs) = Nat.min (batch_size cfg) (length xs - lo) /\
  length (slice lo hi ys) = Nat.min (batch_size cfg) (length ys - lo).
Proof.
  intros Hx Hy lo hi.
  assert (Ehi : hi = lo + batch_size cfg) by (subst lo hi; lia).
  rewrite Ehi. repeat split.
  - subst lo. apply generate_clean_data_nth; assumption.
  - unfold generate_clean_data_step. rewrite Hx, Hy. reflexivity.
  - apply slice_past_end.
  - apply slice_past_end.
  - rewrite slice_length. f_equal. lia.
  - rewrite slice_length. f_equal. lia.
Qed.

(** C8 (as amended).  When the generator ends without yielding a batch,
    the writer fails with the error of drawing from an exhausted
    generator, passed on to the caller; the destination has by then been
    opened for writing, and is left as a container with neither [x] nor
    [y], from which the reader cannot read. *)
Theorem writer_fails_on_empty_sequence (cfg : Config) (csv : DataFrame V)
    (disk : option (H5File V)) :
  clean_data cfg csv = ([], Exhausted) ->
  create_clean_datafile cfg csv disk = (Raise StopIteration, Some new_h5) /\
  (forall start n,
      generate_clean_data cfg (snd (create_clean_datafile cfg csv disk)) start n
      = Raise KeyError).
Proof.
  intros Hgen.
  assert (E : create_clean_datafile cfg csv disk = (Raise StopIteration, Some new_h5)).
  { unfold create_clean_datafile. rewrite Hgen. reflexivity. }
  split; [exact E |]. rewrite E. intros start n. destruct n; reflexivity.
Qed.

(** ** Batches of full size *)

Lemma succ_mod (a b : nat) :
  0 < b ->
  ((a + 1) mod b = 0 /\ a mod b + 1 = b) \/
  ((a + 1) mod b = a mod b + 1 /\ a mod b + 1 < b).
Proof.
  intros Hb.
  pose proof (Nat.div_mod_eq a b) as Ha.
  pose proof (Nat.mod_upper_bound a b ltac:(lia)) as Hr.
  destruct (Nat.eq_dec (a mod b + 1) b) as [E | E].
  - left. split; [| exact E].
    symmetry. apply (Nat.mod_unique (a + 1) b (a / b + 1) 0); lia.
  - right. split; [| lia].
    symmetry. apply (Nat.mod_unique (a + 1) b (a / b) (a mod b + 1)); lia.
Qed.

(** On a table without missing cells every batch yielded holds exactly
    [batch_size] windows and [batch_size] targets. *)
Lemma null_free_batches_full (cfg : Config) (csv : DataFrame V) :
  has_null csv = false ->
  0 < batch_size cfg ->
  Forall (fun b : batch V => length (fst b) = batch_size cfg /\
                             length (snd b) = batch_size cfg)
         (fst (clean_data cfg csv)).
Proof.
  intros Hn Hb. rewrite clean_data_yields. simpl. unfold clean_data_trace.
  set (data := filter_columns (filter_cols cfg) csv).
  assert (Hdn : has_null data = false) by (apply filter_columns_null_free, Hn).
  destruct (index _ _) as [k |]; simpl; [| constructor].
  destruct (while_loop _ _ _ _ _) as [tr t] eqn:El. simpl.
  assert (HF : Forall (fun p : nat * step_outcome V =>
      match snd p with
      | Accepted _ _ (Some b) =>
          length (fst b) = batch_size cfg /\ length (snd b) = batch_size cfg
      | _ => True
      end) tr).
  { apply (while_loop_Forall _ _ _
             (fun st => length (x_data st) = i st mod batch_size cfg /\
                        length (y_data st) = i st mod batch_size cfg))
      with (3 := El).
    2:{ simpl. rewrite Nat.Div0.mod_0_l. auto. }
    intros st st' o [Px Py] _ Hbody. destruct o as [| x y e].
    - apply loop_body_rejected_inv in Hbody as [Hnull _].
      rewrite (null_free_windows cfg data (i st) Hdn) in Hnull. discriminate.
    - apply loop_body_accepted_inv in Hbody
        as (_ & xw & yw & cells & _ & _ & _ & _ & _ & Hi & Hcase).
      rewrite Hi. simpl.
      destruct (succ_mod (i st) (batch_size cfg) Hb) as [[E1 E2] | [E1 E2]];
        destruct Hcase as [(Hm & -> & -> & ->) | (Hm & -> & -> & ->)]; simpl;
        rewrite ?length_app; simpl; repeat split; lia. }
  clear El. induction tr as [| [pos [| x y [b |]]] tr IH]; simpl;
    inversion HF; subst; auto.
Qed.

(** ** Writing and reading back *)

Lemma slice_map {A B : Type} (f : A -> B) (lo hi : nat) (l : list A) :
  slice lo hi (map f l) = map f (slice lo hi l).
Proof. unfold slice. rewrite skipn_map, firstn_map. reflexivity. Qed.

Lemma slice_concat_nth {A : Type} (size : nat) (ls : list (list A)) (n : nat) :
  Forall (fun l => length l = size) ls ->
  n < length ls ->
  slice (n * size) (n * size + size) (concat ls) = nth n ls [].
Proof.
  intros Hall. revert n. induction Hall as [| l ls Hl _ IH]; simpl; intros n Hn; [lia |].
  unfold slice in *. replace (n * size + size - n * size) with size in * by lia.
  destruct n as [| n]; simpl.
  - rewrite firstn_app, Hl, Nat.sub_diag, <- Hl, firstn_all. simpl. apply app_nil_r.
  - rewrite skipn_app, skipn_all2 by lia. simpl.
    replace (size + n * size - length l) with (n * size) by lia.
    specialize (IH n ltac:(lia)).
    replace (n * size + size - n * size) with size in IH by lia.
    exact IH.
Qed.

(** When every batch written holds exactly [batch_size] windows and
    targets, the [n]-th pull of the reader from offset 0 is the [n]-th
    batch written, each cell as converted on storage. *)
Lemma roundtrip_full_batches (cfg : Config) (b1 : batch V) (rest : list (batch V))
    (n : nat) :
  Forall (fun b : batch V => length (fst b) = batch_size cfg /\
                             length (snd b) = batch_size cfg) (b1 :: rest) ->
  n < length (b1 :: rest) ->
  generate_clean_data cfg
    (Some (h5_of (last (writer_states b1 rest) (writer_init b1)))) 0 n =
  Ok (map (map (map to_f4)) (fst (nth n (b1 :: rest) ([], []))),
      map to_f4 (snd (nth n (b1 :: rest) ([], [])))).
Proof.
  intros Hfull Hn.
  destruct (writer_states_last b1 rest) as (Hx & Hy & _ & _).
  rewrite (generate_clean_data_nth cfg (h5_of _) (dset_x _) (dset_y _) n 0
             eq_refl eq_refl).
  rewrite Hx, Hy. simpl Nat.add. rewrite !slice_map.
  assert (Fx : Forall (fun l : list (matrix V) => length l = batch_size cfg)
                      (map fst (b1 :: rest))).
  { apply Forall_map. eapply Forall_impl; [| exact Hfull]. simpl. tauto. }
  assert (Fy : Forall (fun l : list V => length l = batch_size cfg)
                      (map snd (b1 :: rest))).
  { apply Forall_map. eapply Forall_impl; [| exact Hfull]. simpl. tauto. }
  assert (Ex : slice (n * batch_size cfg) (n * batch_size cfg + batch_size cfg)
                 (concat (map fst (b1 :: rest)))
               = fst (nth n (b1 :: rest) ([], []))).
  { transitivity (nth n (map fst (b1 :: rest)) []).
    - apply slice_concat_nth; [exact Fx | rewrite length_map; exact Hn].
    - apply (map_nth fst (b1 :: rest) ([], [])). }
  assert (Ey : slice (n * batch_size cfg) (n * batch_size cfg + batch_size cfg)
                 (concat (map snd (b1 :: rest)))
               = snd (nth n (b1 :: rest) ([], []))).
  { transitivity (nth n (map snd (b1 :: rest)) []).
    - apply slice_concat_nth; [exact Fy | rewrite length_map; exact Hn].
    - apply (map_nth snd (b1 :: rest) ([], [])). }
  apply f_equal. apply f_equal2; apply f_equal; assumption.
Qed.

(** For a table without missing cells, writing what the generator yields
    and reading back from offset 0 returns the batches in order, each
    cell as converted on storage. *)
Lemma null_free_roundtrip (cfg : Config) (csv : DataFrame V)
    (disk : option (H5File V)) (n : nat) :
  has_null csv = false ->
  0 < batch_size cfg ->
  n < length (fst (clean_data cfg csv)) ->
  generate_clean_data cfg (snd (create_clean_datafile cfg csv disk)) 0 n =
  Ok (map (map (map to_f4)) (fst (nth n (fst (clean_data cfg csv)) ([], []))),
      map to_f4 (snd (nth n (fst (clean_data cfg csv)) ([], [])))).
Proof.
  intros Hn Hb Hlt.
  pose proof (null_free_batches_full cfg csv Hn Hb) as Hfull.
  unfold create_clean_datafile.
  destruct (clean_data cfg csv) as [[| b1 rest] t]; simpl in *; [lia |].
  apply roundtrip_full_batches; [exact Hfull | simpl; exact Hlt].
Qed.

End Facts.

(** * The properties on concrete tables *)

Import Exact.

(** The end-to-end scenario of the specification: 17 windows are
    accepted, 8 batches of 2 are yielded, the first input window is
    [0, 1, 2] and its target 3. *)
Example scenario_run :
  length (accepted (fst (clean_data_trace scenario_cfg scenario_table))) = 17 /\
  length (fst (clean_data scenario_cfg scenario_table)) = 8 /\
  hd_error (accepted (fst (clean_data_trace scenario_cfg scenario_table))) =
  Some (0, ([[Num 0]; [Num 1]; [Num 2]], Num 3)).
Proof. vm_compute. repeat split. Qed.

(** C1 (failing inputs).  With a missing cell in the table the batches
    yielded do not hold [batch_size] pairs.  On [nan_table], with
    [batch_size = 2], the first batch holds one pair.  On [gap_table],
    with [batch_size = 3], the only batch holds four.  On [edge_table],
    with [batch_size = 2], a single window is accepted in the whole scan
    and it is yielded, as a batch of one, by the last iteration. *)
Theorem batch_size_broken_by_missing_cell :
  (batch_size nan_cfg = 2 /\
   clean_data nan_cfg nan_table =
     ([ ([[[Num 1]]], [Num 2]);
        ([[[Num 2]]; [[Num 3]]], [Num 3; Num 4]) ], Exhausted)) /\
  (batch_size gap_cfg = 3 /\
   clean_data gap_cfg gap_table =
     ([ ([[[Num 1]]; [[Num 4]]; [[Num 5]]; [[Num 6]]],
         [Num 2; Num 5; Num 6; Num 7]) ], Exhausted)) /\
  (batch_size nan_cfg = 2 /\
   clean_data_trace nan_cfg edge_table =
     ([ (0, Rejected);
        (1, Accepted [[Num 1]] (Num 2) (Some ([[[Num 1]]], [Num 2]))) ],
      Exhausted)).
Proof. vm_compute. repeat split. Qed.

(** C5 (failing inputs).  On [gap_table] the generator yields one batch,
    of four pairs; the writer stores its four rows; the first pull of the
    reader, from offset 0 with the same [batch_size = 3], returns three
    of them.  On [nan_table] the batches written hold one and two pairs,
    and the first pull, with [batch_size = 2], returns the first two
    stored rows, which is not the first batch written. *)
Theorem roundtrip_broken_by_missing_cell :
  (fst (clean_data gap_cfg gap_table) =
     [ ([[[Num 1]]; [[Num 4]]; [[Num 5]]; [[Num 6]]],
        [Num 2; Num 5; Num 6; Num 7]) ] /\
   create_clean_datafile gap_cfg gap_table None =
     (Ok tt, Some {| h5_x := Some [[[Num 1]]; [[Num 4]]; [[Num 5]]; [[Num 6]]];
                     h5_y := Some [Num 2; Num 5; Num 6; Num 7] |}) /\
   generate_clean_data gap_cfg (snd (create_clean_datafile gap_cfg gap_table None)) 0 0
     = Ok ([[[Num 1]]; [[Num 4]]; [[Num 5]]], [Num 2; Num 5; Num 6]) /\
   generate_clean_data gap_cfg (snd (create_clean_datafile gap_cfg gap_table None)) 0 0
     <> Ok (nth 0 (fst (clean_data gap_cfg gap_table)) ([], []))) /\
  (fst (clean_data nan_cfg nan_table) =
     [ ([[[Num 1]]], [Num 2]); ([[[Num 2]]; [[Num 3]]], [Num 3; Num 4]) ] /\
   fst (create_clean_datafile nan_cfg nan_table None) = Ok tt /\
   generate_clean_data nan_cfg (snd (create_clean_datafile nan_cfg nan_table None)) 0 0
     = Ok ([[[Num 1]]; [[Num 2]]], [Num 2; Num 3]) /\
   generate_clean_data nan_cfg (snd (create_clean_datafile nan_cfg nan_table None)) 0 0
     <> Ok (nth 0 (fst (clean_data nan_cfg nan_table)) ([], []))).
Proof.
  vm_compute. repeat split; discriminate.
Qed.

(** The count on the scenario of the specification: 20 - 3 - 1 + 1 = 17. *)
Lemma null_free_table_accepted_count_witness :
  has_null scenario_table = false /\
  well_formed scenario_table = true /\
  In (y_col scenario_cfg)
     (columns (filter_columns (filter_cols scenario_cfg) scenario_table)) /\
  0 < batch_size scenario_cfg /\
  0 < x_window_size scenario_cfg /\
  snd (clean_data_trace scenario_cfg scenario_table) = Exhausted /\
  length (accepted (fst (clean_data_trace scenario_cfg scenario_table))) = 17.
Proof.
  assert (Hin : In (y_col scenario_cfg)
     (columns (filter_columns (filter_cols scenario_cfg) scenario_table)))
    by (left; reflexivity).
  assert (Hb : 0 < batch_size scenario_cfg) by (simpl; lia).
  assert (Hx : 0 < x_window_size scenario_cfg) by (simpl; lia).
  do 5 (split; [first [reflexivity | assumption] |]).
  exact (null_free_table_accepted_count scenario_cfg scenario_table
           eq_refl eq_refl Hin Hb Hx).
Defined.

(** Targets over three rows.  At position 0 the base row is [1, 2] and the
    [close] cells of rows 2 to 4 are 6, 8 and 16: on the scale of the base
    2, 3 and 7, of mean 4.  At position 1 the base row is [2, 4] and the
    cells are 8, 16 and 20: scaled 1, 3 and 4, of mean 8/3. *)
Lemma target_is_mean_over_following_rows_witness :
  well_formed mean_table = true /\
  map (fun p => (fst p, snd (snd p)))
      (accepted (fst (clean_data_trace mean_cfg mean_table))) =
    [(0, Num 4); (1, Num (8 # 3))] /\
  target_by_spec mean_cfg mean_table 0 = Some (Num 4) /\
  target_by_spec mean_cfg mean_table 1 = Some (Num (8 # 3)) /\
  (forall pos x y,
      In (pos, (x, y))
         (accepted (fst (clean_data_trace mean_cfg mean_table))) ->
      target_by_spec mean_cfg
        (filter_columns (filter_cols mean_cfg) mean_table) pos = Some y) /\
  (exists left_y,
      map (fun p => snd (snd p))
          (accepted (fst (clean_data_trace mean_cfg mean_table))) =
      concat (map snd (fst (clean_data mean_cfg mean_table))) ++ left_y).
Proof.
  do 4 (split; [reflexivity |]).
  exact (target_is_mean_over_following_rows mean_cfg mean_table eq_refl).
Defined.

(** The second pull of two from a container of three rows: a short slice. *)
Lemma reader_nth_pull_witness :
  h5_x three_rows_h5 = Some [[[Num 1]]; [[Num 2]]; [[Num 3]]] /\
  h5_y three_rows_h5 = Some [Num 2; Num 3; Num 4] /\
  generate_clean_data nan_cfg (Some three_rows_h5) 0 1 =
    Ok (slice 2 4 [[[Num 1]]; [[Num 2]]; [[Num 3]]], slice 2 4 [Num 2; Num 3; Num 4]) /\
  generate_clean_data_step nan_cfg (Some three_rows_h5) 2 =
    Ok ((slice 2 4 [[[Num 1]]; [[Num 2]]; [[Num 3]]], slice 2 4 [Num 2; Num 3; Num 4]), 4) /\
  (3 <= 2 -> slice 2 4 [[[Num 1]]; [[Num 2]]; [[Num 3]]] = []) /\
  (3 <= 2 -> slice 2 4 [Num 2; Num 3; Num 4] = []) /\
  length (slice 2 4 [[[Num 1]]; [[Num 2]]; [[Num 3]]]) = 1 /\
  length (slice 2 4 [Num 2; Num 3; Num 4]) = 1.
Proof.
  split; [reflexivity |]. split; [reflexivity |].
  exact (reader_nth_pull_is_slice_no_bounds_check nan_cfg three_rows_h5
           [[[Num 1]]; [[Num 2]]; [[Num 3]]] [Num 2; Num 3; Num 4] 0 1
           eq_refl eq_refl).
Defined.

(** The filter keeps [open] only, so [close] is not found. *)
Lemma missing_y_col_witness :
  ~ In (y_col open_only_cfg)
       (columns (filter_columns (filter_cols open_only_cfg) two_column_table)) /\
  clean_data open_only_cfg two_column_table = ([], Raised ValueError) /\
  fst (create_clean_datafile open_only_cfg two_column_table None) = Raise ValueError.
Proof.
  assert (Hnin : ~ In (y_col open_only_cfg)
       (columns (filter_columns (filter_cols open_only_cfg) two_column_table))).
  { intros Hin. vm_compute in Hin. destruct Hin as [E | []]. discriminate E. }
  split; [exact Hnin |].
  exact (missing_y_col_raises_before_any_batch open_only_cfg two_column_table
           None Hnin).
Defined.

(** Two rows cannot hold a window of three rows and one target row. *)
Lemma writer_fails_on_empty_sequence_witness :
  clean_data scenario_cfg tiny_table = ([], Exhausted) /\
  create_clean_datafile scenario_cfg tiny_table None
    = (Raise StopIteration, Some new_h5) /\
  (forall start n,
      generate_clean_data scenario_cfg
        (snd (create_clean_datafile scenario_cfg tiny_table None)) start n
      = Raise KeyError).
Proof.
  split; [reflexivity |].
  exact (writer_fails_on_empty_sequence scenario_cfg tiny_table None eq_refl).
Defined.

(** C8 (counterexample).  On [tiny_table] the generator yields no batch,
    and the writer, while failing, does produce a destination: a
    container with neither [x] nor [y], where there was none before. *)
Lemma empty_input_creates_empty_container :
  clean_data scenario_cfg tiny_table = ([], Exhausted) /\
  fst (create_clean_datafile scenario_cfg tiny_table None) = Raise StopIteration /\
  snd (create_clean_datafile scenario_cfg tiny_table None) = Some new_h5 /\
  snd (create_clean_datafile scenario_cfg tiny_table None) <> None.
Proof.
  vm_compute. repeat split. discriminate.
Qed.

(** The writer's counters on the two batches yielded from eight rows. *)
Lemma writer_row_counts_agree_witness :
  exists b1 rest t,
    clean_data scenario_cfg short_table = (b1 :: rest, t) /\
    Forall (fun w => rcount_x w = rcount_y w /\
                     length (dset_x w) = rcount_x w /\
                     length (dset_y w) = rcount_y w)
           (writer_states b1 rest) /\
    length (writer_states b1 rest) = length (b1 :: rest) /\
    snd (create_clean_datafile scenario_cfg short_table None) =
    Some (h5_of (last (writer_states b1 rest) (writer_init b1))).
Proof.
  destruct (clean_data scenario_cfg short_table) as [[| b1 rest] t] eqn:E;
    [vm_compute in E; discriminate E |].
  exists b1, rest, t. split; [reflexivity |].
  exact (writer_row_counts_agree scenario_cfg short_table None b1 rest t E).
Defined.

(** An empty series and a series of two cells as bases of a 2 x 2 window. *)
Lemma zero_base_standardize_base_choice_witness :
  empty (Series ([] : list num)) = true /\
  empty (Series [Num 4; Num 4]) = false /\
  zero_base_standardize small_window (Series []) =
    zero_base_standardize small_window default_abs_base /\
  (forall r rest,
      values small_window = r :: rest ->
      zero_base_standardize small_window (Series []) =
      Ok (Series r, frame_sub_scalar (frame_div small_window (Series r)) fone)) /\
  (values small_window = [] ->
   zero_base_standardize small_window (Series []) = Raise IndexError) /\
  zero_base_standardize small_window (Series [Num 4; Num 4]) =
  Ok (Series [Num 4; Num 4],
      frame_sub_scalar (frame_div small_window (Series [Num 4; Num 4])) fone).
Proof.
  split; [reflexivity |]. split; [reflexivity |].
  exact (zero_base_standardize_base_choice small_window
           (Series []) (Series [Num 4; Num 4]) eq_refl eq_refl).
Defined.

(** * Further properties of the code *)

Section MoreFacts.

Context {V : Type} `{Cell V}.

(** ** Column filtering (lines 27-31) *)

Lemma select_keep_columns (keep : string -> bool) (cols : list string) :
  select (map keep cols) cols = filter keep cols.
Proof.
  induction cols as [| c cols IH]; simpl; [reflexivity |].
  destruct (keep c); simpl; rewrite IH; reflexivity.
Qed.

Lemma select_keep_cells (keep : string -> bool) (cols : list string) (r : list V) :
  combine (select (map keep cols) cols) (select (map keep cols) r) =
  filter (fun p => keep (fst p)) (combine cols r).
Proof.
  revert r. induction cols as [| c cols IH]; intros [| v r]; simpl; try reflexivity.
  - destruct (keep c); simpl; [reflexivity |].
    destruct (select (map keep cols) cols); reflexivity.
  - destruct (keep c); simpl; rewrite IH; reflexivity.
Qed.

(** X1.  With a non-empty [filter_cols] the table keeps exactly the
    columns named in it, in their original order (names that are not
    columns of the table are ignored), every row keeps exactly its cells
    under those columns, and no row is added or removed; with no filter
    or an empty one the table is left as it is. *)
Theorem filter_columns_keeps_named_columns (c : string) (cs : list string)
    (csv : DataFrame V) :
  let keep := c :: cs in
  let named := fun n => existsb (String.eqb n) keep in
  let kept := filter_columns (Some keep) csv in
  columns kept = filter named (columns csv) /\
  (forall n, In n (columns kept) <-> In n (columns csv) /\ In n keep) /\
  map (combine (columns kept)) (values kept) =
    map (fun r => filter (fun p => named (fst p)) (combine (columns csv) r))
        (values csv) /\
  num_rows_of kept = num_rows_of csv /\
  filter_columns None csv = csv /\
  filter_columns (Some []) csv = csv.
Proof.
  intros keep named kept.
  assert (Hcols : columns kept = filter named (columns csv)).
  { subst kept. unfold filter_columns, keep_mask. simpl columns.
    apply (select_keep_columns named). }
  split; [exact Hcols |]. split; [| split; [| split; [| split]]].
  - intros n. rewrite Hcols, filter_In. unfold named.
    split; intros [Hn Hk]; (split; [exact Hn |]).
    + apply existsb_exists in Hk as (m & Hm & E).
      apply String.eqb_eq in E. subst m. exact Hm.
    + apply existsb_exists. exists n. split; [exact Hk | apply String.eqb_refl].
  - subst kept. unfold filter_columns, keep_mask. simpl columns. simpl values.
    rewrite map_map. apply map_ext. intros r.
    apply (select_keep_cells named).
  - apply filter_columns_num_rows.
  - reflexivity.
  - reflexivity.
Qed.

(** ** The scan on tables with missing cells (lines 36-72) *)

Section ScanFacts.

Variable cfg : Config.
Variable data : DataFrame V.
Variable k : nat.

Lemma in_range_positions (st : gen_state V) :
  in_range cfg data st = true <-> i st < num_positions cfg data.
Proof.
  unfold in_range, num_positions. rewrite Nat.leb_le. lia.
Qed.

Lemma acceptable_iff (pos : nat) :
  acceptable cfg data pos = true <->
  pos < num_positions cfg data /\ window_has_null cfg data pos = false.
Proof.
  unfold acceptable, num_positions.
  rewrite andb_true_iff, Nat.leb_le, negb_true_iff. split; intros [? ?]; split;
    auto; lia.
Qed.

(** A scan that meets no acceptable position rejects every position and
    ends normally, whatever the configuration. *)
Lemma while_loop_all_rejected (fuel : nat) (st : gen_state V) :
  i st <= num_rows_of data + 1 ->
  num_rows_of data + 2 <= fuel + i st ->
  (forall pos, i st <= pos -> acceptable cfg data pos = false) ->
  while_loop cfg data k fuel st =
  (map (fun pos => (pos, Rejected)) (seq (i st) (num_positions cfg data - i st)),
   Exhausted).
Proof.
  revert st. induction fuel as [| fuel IH]; simpl; intros st Hi Hf Hnone; [lia |].
  destruct (in_range cfg data st) eqn:Er.
  - apply in_range_positions in Er.
    assert (Hnull : window_has_null cfg data (i st) = true).
    { specialize (Hnone (i st) (le_n _)).
      destruct (window_has_null cfg data (i st)) eqn:E; [reflexivity |].
      assert (acceptable cfg data (i st) = true) by (apply acceptable_iff; auto).
      congruence. }
    rewrite (loop_body_rejects cfg data k st Hnull).
    unfold num_positions in Er.
    rewrite IH; simpl; try lia.
    2:{ intros pos Hpos. apply Hnone. lia. }
    replace (num_positions cfg data - i st)
      with (S (num_positions cfg data - (i st + 1)))
      by (unfold num_positions; lia).
    simpl. rewrite Nat.add_1_r. reflexivity.
  - destruct (Nat.ltb_spec (i st) (num_positions cfg data)) as [Hlt | Hge].
    + apply in_range_positions in Hlt. congruence.
    + replace (num_positions cfg data - i st) with 0 by lia. reflexivity.
Qed.

(** When every acceptable position makes the loop body raise [e], the
    scan accepts and yields nothing, and raises [e] at the first
    acceptable position. *)
Lemma while_loop_failing (e : exn) :
  (forall st, in_range cfg data st = true ->
              window_has_null cfg data (i st) = false ->
              loop_body cfg data k st = Raise e) ->
  forall fuel st,
    i st <= num_rows_of data + 1 ->
    num_rows_of data + 2 <= fuel + i st ->
    (exists pos, i st <= pos /\ acceptable cfg data pos = true) ->
    accepted (fst (while_loop cfg data k fuel st)) = [] /\
    yields (fst (while_loop cfg data k fuel st)) = [] /\
    snd (while_loop cfg data k fuel st) = Raised e.
Proof.
  intros Hfail. induction fuel as [| fuel IH]; simpl; intros st Hi Hf Hex; [lia |].
  destruct Hex as (pos & Hpos & Hacc).
  pose proof Hacc as Hacc'. apply acceptable_iff in Hacc' as [Hlt Hnn].
  assert (Er : in_range cfg data st = true) by (apply in_range_positions; lia).
  rewrite Er.
  destruct (window_has_null cfg data (i st)) eqn:Hnull.
  - rewrite (loop_body_rejects cfg data k st Hnull).
    assert (Hne : pos <> i st) by (intros ->; congruence).
    unfold num_positions in Hlt.
    destruct (IH {| i := i st + 1; x_data := x_data st; y_data := y_data st |})
      as (Ha & Hy & Ht); simpl; try lia.
    { exists pos. split; [lia | exact Hacc]. }
    destruct (while_loop cfg data k fuel _) as [tr t]. simpl in *. auto.
  - rewrite (Hfail st Er Hnull). simpl. auto.
Qed.

(** When every acceptable position is accepted, the scan ends normally,
    visits every position at which the windows fit, and accepts exactly
    those whose windows hold no missing cell. *)
Lemma while_loop_accepting :
  (forall st, in_range cfg data st = true ->
              window_has_null cfg data (i st) = false ->
              exists st' x y yielded,
                loop_body cfg data k st = Ok (st', Accepted x y yielded)) ->
  forall fuel st,
    i st <= num_rows_of data + 1 ->
    num_rows_of data + 2 <= fuel + i st ->
    snd (while_loop cfg data k fuel st) = Exhausted /\
    map fst (fst (while_loop cfg data k fuel st)) =
      seq (i st) (num_positions cfg data - i st) /\
    map fst (accepted (fst (while_loop cfg data k fuel st))) =
      filter (fun pos => negb (window_has_null cfg data pos))
             (seq (i st) (num_positions cfg data - i st)).
Proof.
  intros Hok. induction fuel as [| fuel IH]; simpl; intros st Hi Hf; [lia |].
  destruct (in_range cfg data st) eqn:Er.
  - pose proof Er as Hlt. apply in_range_positions in Hlt.
    assert (Hseq : num_positions cfg data - i st
                   = S (num_positions cfg data - (i st + 1))) by lia.
    unfold num_positions in Hlt.
    destruct (window_has_null cfg data (i st)) eqn:Hnull.
    + rewrite (loop_body_rejects cfg data k st Hnull).
      destruct (IH {| i := i st + 1; x_data := x_data st; y_data := y_data st |})
        as (Ht & Hp & Ha); simpl; try lia.
      destruct (while_loop cfg data k fuel _) as [tr t]. simpl in *.
      rewrite Hseq. simpl. rewrite Hnull. simpl.
      rewrite Hp, Ha, Nat.add_1_r. auto.
    + destruct (Hok st Er Hnull) as (st' & x & y & e & Hb). rewrite Hb.
      pose proof (loop_body_advances _ _ _ _ _ _ Hb) as Hadv.
      destruct (IH st') as (Ht & Hp & Ha); try lia.
      destruct (while_loop cfg data k fuel st') as [tr t]. simpl in *.
      rewrite Hseq. simpl. rewrite Hnull. simpl.
      rewrite Hp, Ha, Hadv, Nat.add_1_r. auto.
  - destruct (Nat.ltb_spec (i st) (num_positions cfg data)) as [Hlt | Hge].
    + apply in_range_positions in Hlt. congruence.
    + replace (num_positions cfg data - i st) with 0 by lia. simpl. auto.
Qed.

Hypothesis data_wf : well_formed data = true.
Hypothesis k_is_y_col : index (y_col cfg) (columns data) = Ok k.

(** [model_windows_ok] without asking for an input window of at least
    one row when the windows are not normalised. *)
Lemma model_windows_ok_general (pos : nat) :
  (normalize cfg = true -> 0 < x_window_size cfg) ->
  pos + x_window_size cfg + y_window_size cfg <= num_rows_of data ->
  exists xw yw cells,
    model_windows cfg data pos = Ok (xw, yw) /\
    column k (values yw) = Ok cells.
Proof.
  intros Hx Hr. destruct (normalize cfg) eqn:Hnorm.
  - apply (model_windows_ok cfg data k data_wf k_is_y_col pos (Hx eq_refl) Hr).
  - unfold model_windows. rewrite Hnorm.
    pose proof (index_Ok_lt _ _ _ k_is_y_col) as Hk.
    destruct (column_ok k (values (y_window cfg data pos))) as (cells & Hc).
    { intros r' Hin'. apply slice_incl in Hin'.
      rewrite (well_formed_row _ _ data_wf Hin'). lia. }
    eexists _, _, cells. split; [reflexivity | exact Hc].
Qed.

Lemma loop_body_accepts_general (st : gen_state V) :
  (normalize cfg = true -> 0 < x_window_size cfg) ->
  0 < batch_size cfg ->
  in_range cfg data st = true ->
  window_has_null cfg data (i st) = false ->
  exists st' x y yielded,
    loop_body cfg data k st = Ok (st', Accepted x y yielded).
Proof.
  intros Hx Hb Hr Hn. unfold in_range in Hr. apply Nat.leb_le in Hr.
  destruct (model_windows_ok_general (i st) Hx Hr) as (xw & yw & cells & Hm & Hc).
  unfold loop_body. unfold window_has_null in Hn. rewrite Hn.
  fold (model_windows cfg data (i st)). rewrite Hm. simpl. rewrite Hc. simpl.
  destruct (batch_size cfg =? 0) eqn:Eb; [apply Nat.eqb_eq in Eb; lia |].
  destruct (_ mod _ =? 0); eauto.
Qed.

(** Line 117 on a window without rows: [data.iloc[0]] raises. *)
Lemma loop_body_no_input_row (st : gen_state V) :
  normalize cfg = true ->
  x_window_size cfg = 0 ->
  window_has_null cfg data (i st) = false ->
  loop_body cfg data k st = Raise IndexError.
Proof.
  intros Hnorm Hx Hn. unfold loop_body.
  unfold window_has_null in Hn. rewrite Hn, Hnorm.
  unfold zero_base_standardize at 1. simpl empty. cbv iota.
  unfold iloc0, x_window, rows. simpl values. unfold slice.
  rewrite Hx. replace (i st + 0 - i st) with 0 by lia. reflexivity.
Qed.

(** Line 65 with [batch_size = 0]: the modulo raises. *)
Lemma loop_body_zero_batch (st : gen_state V) :
  (normalize cfg = true -> 0 < x_window_size cfg) ->
  batch_size cfg = 0 ->
  in_range cfg data st = true ->
  window_has_null cfg data (i st) = false ->
  loop_body cfg data k st = Raise ZeroDivisionError.
Proof.
  intros Hx Hb Hr Hn. unfold in_range in Hr. apply Nat.leb_le in Hr.
  destruct (model_windows_ok_general (i st) Hx Hr) as (xw & yw & cells & Hm & Hc).
  unfold loop_body. unfold window_has_null in Hn. rewrite Hn.
  fold (model_windows cfg data (i st)). rewrite Hm. simpl. rewrite Hc. simpl.
  rewrite Hb. reflexivity.
Qed.

End ScanFacts.



(** X2.  On a well-formed table, with [y_col] present, a positive batch
    size and (when normalising) an input window of at least one row, the
    scan ends by exhaustion, visits every row index at which both windows
    fit, in order, and accepts exactly those whose windows hold no missing
    cell. *)
Theorem scan_accepts_exactly_the_clean_positions (cfg : Config) (csv : DataFrame V) :
  well_formed csv = true ->
  In (y_col cfg) (columns (filter_columns (filter_cols cfg) csv)) ->
  0 < batch_size cfg ->
  (normalize cfg = true -> 0 < x_window_size cfg) ->
  let data := filter_columns (filter_cols cfg) csv in
  let tr := fst (clean_data_trace cfg csv) in
  snd (clean_data_trace cfg csv) = Exhausted /\
  map fst tr = seq 0 (num_positions cfg data) /\
  map fst (accepted tr) =
    filter (fun pos => negb (window_has_null cfg data pos))
           (seq 0 (num_positions cfg data)).
Proof.
  intros Hwf Hin Hb Hx data tr. subst tr. unfold clean_data_trace. fold data.
  destruct (index_In _ _ Hin) as (k & Hk). fold data in Hk. rewrite Hk.
  assert (Hdwf : well_formed data = true) by (apply filter_columns_well_formed, Hwf).
  pose proof (while_loop_accepting cfg data k
                (fun st => loop_body_accepts_general cfg data k Hdwf Hk st Hx Hb)
                (num_rows_of data + 2) initial_state) as Hloop.
  simpl in Hloop. rewrite Nat.sub_0_r in Hloop. apply Hloop; lia.
Qed.

(** X3.  With [batch_size = 0] the modulo of line 65 raises
    [ZeroDivisionError] at the first window that passes the NaN test:
    nothing is accepted into a batch that is yielded, the generator
    raises at its first pull, and the writer passes the error on, leaving
    the container it has just created empty. *)
Theorem zero_batch_size_raises (cfg : Config) (csv : DataFrame V)
    (disk : option (H5File V)) :
  well_formed csv = true ->
  In (y_col cfg) (columns (filter_columns (filter_cols cfg) csv)) ->
  batch_size cfg = 0 ->
  (normalize cfg = true -> 0 < x_window_size cfg) ->
  (exists pos,
      acceptable cfg (filter_columns (filter_cols cfg) csv) pos = true) ->
  clean_data cfg csv = ([], Raised ZeroDivisionError) /\
  create_clean_datafile cfg csv disk = (Raise ZeroDivisionError, Some new_h5).
Proof.
  intros Hwf Hin Hb Hx (pos & Hacc).
  set (data := filter_columns (filter_cols cfg) csv) in *.
  destruct (index_In _ _ Hin) as (k & Hk).
  assert (Hdwf : well_formed data = true) by (apply filter_columns_well_formed, Hwf).
  assert (E : clean_data cfg csv = ([], Raised ZeroDivisionError)).
  { unfold clean_data, clean_data_trace. fold data. rewrite Hk.
    destruct (while_loop_failing cfg data k ZeroDivisionError
                (fun st Hr Hn => loop_body_zero_batch cfg data k Hdwf Hk st Hx Hb Hr Hn)
                (num_rows_of data + 2) initial_state) as (Ha & Hy & Ht);
      simpl; try lia.
    { exists pos. split; [lia | exact Hacc]. }
    destruct (while_loop cfg data k _ _) as [tr t]. simpl in *. congruence. }
  split; [exact E |]. unfold create_clean_datafile. rewrite E. reflexivity.
Qed.

(** X4.  Normalising with [x_window_size = 0] raises [IndexError] (the
    [iloc[0]] of line 117 on a window without rows) at the first window
    that passes the NaN test, before anything is yielded and before the
    modulo of line 65 is reached; the writer passes the error on and
    leaves an empty container. *)
Theorem empty_input_window_raises (cfg : Config) (csv : DataFrame V)
    (disk : option (H5File V)) :
  In (y_col cfg) (columns (filter_columns (filter_cols cfg) csv)) ->
  normalize cfg = true ->
  x_window_size cfg = 0 ->
  (exists pos,
      acceptable cfg (filter_columns (filter_cols cfg) csv) pos = true) ->
  clean_data cfg csv = ([], Raised IndexError) /\
  create_clean_datafile cfg csv disk = (Raise IndexError, Some new_h5).
Proof.
  intros Hin Hnorm Hx (pos & Hacc).
  set (data := filter_columns (filter_cols cfg) csv) in *.
  destruct (index_In _ _ Hin) as (k & Hk).
  assert (E : clean_data cfg csv = ([], Raised IndexError)).
  { unfold clean_data, clean_data_trace. fold data. rewrite Hk.
    destruct (while_loop_failing cfg data k IndexError
                (fun st _ Hn => loop_body_no_input_row cfg data k st Hnorm Hx Hn)
                (num_rows_of data + 2) initial_state) as (Ha & Hy & Ht);
      simpl; try lia.
    { exists pos. split; [lia | exact Hacc]. }
    destruct (while_loop cfg data k _ _) as [tr t]. simpl in *. congruence. }
  split; [exact E |]. unfold create_clean_datafile. rewrite E. reflexivity.
Qed.

(** X5.  When no row index has both windows inside the table and free of
    missing cells (the table is too short, or every window has a hole),
    the generator rejects every position it visits and ends normally
    without a batch, whatever [batch_size], [x_window_size] and
    [normalize] are: the operations that could raise are never reached. *)
Theorem no_clean_window_ends_quietly (cfg : Config) (csv : DataFrame V) :
  In (y_col cfg) (columns (filter_columns (filter_cols cfg) csv)) ->
  (forall pos,
      acceptable cfg (filter_columns (filter_cols cfg) csv) pos = false) ->
  clean_data_trace cfg csv =
    (map (fun pos => (pos, Rejected))
         (seq 0 (num_positions cfg (filter_columns (filter_cols cfg) csv))),
     Exhausted) /\
  clean_data cfg csv = ([], Exhausted).
Proof.
  intros Hin Hnone.
  set (data := filter_columns (filter_cols cfg) csv) in *.
  destruct (index_In _ _ Hin) as (k & Hk).
  assert (E : clean_data_trace cfg csv =
              (map (fun pos => (pos, @Rejected V)) (seq 0 (num_positions cfg data)),
               Exhausted)).
  { unfold clean_data_trace. fold data. rewrite Hk.
    rewrite (while_loop_all_rejected cfg data k); simpl; try lia.
    - rewrite Nat.sub_0_r. reflexivity.
    - intros pos _. apply Hnone. }
  split; [exact E |]. unfold clean_data. rewrite E. f_equal.
  generalize (seq 0 (num_positions cfg data)).
  induction l as [| a l IH]; simpl; auto.
Qed.


(** ** Shapes, cadence and accounting of what is yielded *)

Lemma model_windows_shape (cfg : Config) (data : DataFrame V) (pos : nat)
    (xw yw : DataFrame V) :
  well_formed data = true ->
  pos + x_window_size cfg + y_window_size cfg <= num_rows_of data ->
  model_windows cfg data pos = Ok (xw, yw) ->
  has_shape (x_window_size cfg) (length (columns data)) (values xw).
Proof.
  intros Hwf Hr. unfold num_rows_of in Hr.
  assert (Hlen : length (slice pos (pos + x_window_size cfg) (values data))
                 = x_window_size cfg) by (rewrite slice_length; lia).
  unfold model_windows. destruct (normalize cfg).
  - unfold zero_base_standardize at 1. simpl empty. cbv iota.
    unfold iloc0, x_window, rows. simpl values.
    destruct (slice pos (pos + x_window_size cfg) (values data))
      as [| r rest] eqn:Es; [discriminate |].
    simpl bind.
    destruct (zero_base_standardize (y_window cfg data pos) (Series r))
      as [[b ystd] |]; simpl; [| discriminate].
    intros [= <- <-]. unfold frame_sub_scalar, frame_div. cbn [values].
    change (zip_with fdiv r r :: map (fun r0 => zip_with fdiv r0 r) rest)
      with (map (fun r0 => zip_with fdiv r0 r) (r :: rest)).
    assert (Hrows : forall r', In r' (r :: rest) -> length r' = length (columns data)).
    { intros r' Hin. apply (well_formed_row _ _ Hwf).
      apply (slice_incl pos (pos + x_window_size cfg)). rewrite Es. exact Hin. }
    split.
    + rewrite !length_map. exact Hlen.
    + apply Forall_forall. intros r' Hin.
      apply in_map_iff in Hin as (r1 & <- & Hin).
      apply in_map_iff in Hin as (r2 & <- & Hin).
      rewrite length_map, zip_with_length.
      rewrite (Hrows r2 Hin), (Hrows r (or_introl eq_refl)). lia.
  - intros [= <- <-]. simpl. split; [exact Hlen |].
    apply Forall_forall. intros r' Hin. apply slice_incl in Hin.
    apply (well_formed_row _ _ Hwf Hin).
Qed.

Lemma accepted_windows_in_batches (cfg : Config) (csv : DataFrame V)
    (b : batch V) (w : matrix V) :
  In b (fst (clean_data cfg csv)) -> In w (fst b) ->
  exists pos y, In (pos, (w, y)) (accepted (fst (clean_data_trace cfg csv))).
Proof.
  rewrite clean_data_yields. simpl. unfold clean_data_trace.
  destruct (index _ _) as [k |]; simpl; [| tauto].
  destruct (while_loop _ _ _ _ _) as [tr t] eqn:El. simpl. intros Hb Hw.
  destruct (while_loop_accounting _ _ _ _ _ _ _ El) as (lx & ly & Hx & _ & _).
  simpl in Hx.
  assert (Hin : In w (map (fun p => fst (snd p)) (accepted tr))).
  { rewrite Hx. apply in_or_app. left. apply in_concat.
    exists (fst b). split; [apply in_map, Hb | exact Hw]. }
  apply in_map_iff in Hin as ([pos [x y]] & Hxw & Hin). simpl in Hxw. subst x.
  eauto.
Qed.

(** X7.  On a well-formed table every accepted input window, and so every
    window of every batch yielded, has exactly [x_window_size] rows of as
    many cells as the filtered table has columns: the batches can be
    stacked into the rectangular array whose trailing dimensions the
    writer fixes from the first batch. *)
Theorem accepted_windows_have_one_shape (cfg : Config) (csv : DataFrame V) :
  well_formed csv = true ->
  let data := filter_columns (filter_cols cfg) csv in
  let shape := has_shape (x_window_size cfg) (length (columns data)) in
  (forall pos x y,
      In (pos, (x, y)) (accepted (fst (clean_data_trace cfg csv))) -> shape x) /\
  (forall b w, In b (fst (clean_data cfg csv)) -> In w (fst b) -> shape w).
Proof.
  intros Hwf data shape.
  assert (Hdwf : well_formed data = true) by (apply filter_columns_well_formed, Hwf).
  assert (Hacc : forall pos x y,
             In (pos, (x, y)) (accepted (fst (clean_data_trace cfg csv))) -> shape x).
  { unfold clean_data_trace. fold data.
    destruct (index (y_col cfg) (columns data)) as [k |]; simpl; [| tauto].
    destruct (while_loop cfg data k (num_rows_of data + 2) initial_state)
      as [tr t] eqn:El. simpl.
    assert (HF : Forall (fun p =>
        match snd p with
        | Accepted x _ _ => shape x
        | Rejected => True
        end) tr).
    { apply (while_loop_Forall cfg data k (fun _ => True)) with (3 := El); [| exact I].
      intros st st' o _ Hr Hb. split; [exact I |]. simpl.
      destruct o as [| x y e]; [exact I |].
      apply loop_body_accepted_inv in Hb
        as (_ & xw & yw & cells & Hm & _ & -> & _).
      unfold in_range in Hr. apply Nat.leb_le in Hr.
      apply (model_windows_shape cfg data (i st) xw yw Hdwf Hr Hm). }
    intros pos x y Hin. apply accepted_In in Hin as (e & Hin).
    rewrite Forall_forall in HF. exact (HF _ Hin). }
  split; [exact Hacc |].
  intros b w Hb Hw.
  destruct (accepted_windows_in_batches cfg csv b w Hb Hw) as (pos & y & Hin).
  exact (Hacc pos w y Hin).
Qed.

(** X8.  The test of line 65 as the code performs it: an accepted window
    at row index [pos] is followed by a yield exactly when [pos + 1] is a
    multiple of [batch_size], and the batch yielded then ends with that
    window and its target, after whatever was accumulated since the
    previous yield. *)
Theorem batch_yielded_when_next_index_is_multiple (cfg : Config)
    (csv : DataFrame V) (pos : nat) (x : matrix V) (y : V)
    (yielded : option (batch V)) :
  In (pos, Accepted x y yielded) (fst (clean_data_trace cfg csv)) ->
  batch_size cfg <> 0 /\
  (((pos + 1) mod batch_size cfg = 0 /\
    exists xs ys, yielded = Some (xs ++ [x], ys ++ [y]) /\ length xs = length ys)
   \/
   ((pos + 1) mod batch_size cfg <> 0 /\ yielded = None)).
Proof.
  unfold clean_data_trace.
  destruct (index _ _) as [k |]; simpl; [| tauto].
  destruct (while_loop _ _ _ _ _) as [tr t] eqn:El. simpl.
  assert (HF : Forall (fun p : nat * step_outcome V =>
      match snd p with
      | Accepted x y yielded =>
          batch_size cfg <> 0 /\
          (((fst p + 1) mod batch_size cfg = 0 /\
            exists xs ys, yielded = Some (xs ++ [x], ys ++ [y]) /\
                          length xs = length ys)
           \/ ((fst p + 1) mod batch_size cfg <> 0 /\ yielded = None))
      | Rejected => True
      end) tr).
  { apply (while_loop_Forall _ _ _
             (fun st => length (x_data st) = length (y_data st)))
      with (3 := El); [| reflexivity].
    intros st st' o HP _ Hb. destruct o as [| x' y' e].
    - apply loop_body_rejected_inv in Hb as [_ ->]. simpl. auto.
    - apply loop_body_accepted_inv in Hb
        as (_ & xw & yw & cells & _ & _ & _ & _ & Hbs & _ & Hcase).
      destruct Hcase as [(Hm & -> & -> & ->) | (Hm & -> & -> & ->)]; simpl.
      + split; [reflexivity |]. split; [exact Hbs |]. left. split; [exact Hm |].
        exists (x_data st), (y_data st). auto.
      + split; [rewrite !length_app; simpl; lia |]. split; [exact Hbs |].
        right. auto. }
  intros Hin. rewrite Forall_forall in HF. exact (HF _ Hin).
Qed.

Lemma combine_app_same {A B : Type} (l1 l2 : list A) (m1 m2 : list B) :
  length l1 = length m1 ->
  combine (l1 ++ l2) (m1 ++ m2) = combine l1 m1 ++ combine l2 m2.
Proof.
  revert m1. induction l1 as [| a l1 IH]; intros [| b m1]; simpl;
    try discriminate; [reflexivity |].
  intros [= Hlen]. rewrite IH by exact Hlen. reflexivity.
Qed.

Lemma combine_fst_snd {A B : Type} (l : list (A * B)) :
  combine (map fst l) (map snd l) = l.
Proof.
  induction l as [| [a b] l IH]; simpl; [| rewrite IH]; reflexivity.
Qed.

Lemma yields_nonempty (cfg : Config) (csv : DataFrame V) :
  Forall (fun b : batch V => 0 < length (fst b)) (fst (clean_data cfg csv)).
Proof.
  rewrite clean_data_yields. simpl. unfold clean_data_trace.
  destruct (index _ _) as [k |]; simpl; [| constructor].
  destruct (while_loop _ _ _ _ _) as [tr t] eqn:El. simpl.
  assert (HF : Forall (fun p : nat * step_outcome V =>
      match snd p with
      | Accepted _ _ (Some b) => 0 < length (fst b)
      | _ => True
      end) tr).
  { apply (while_loop_Forall _ _ _ (fun _ => True)) with (3 := El); [| exact I].
    intros st st' o _ _ Hb. split; [exact I |]. destruct o as [| x y e]; simpl; auto.
    apply loop_body_accepted_inv in Hb
      as (_ & xw & yw & cells & _ & _ & _ & _ & _ & _ & Hcase).
    destruct Hcase as [(_ & -> & _) | (_ & -> & _)]; simpl; auto.
    rewrite length_app. simpl. lia. }
  clear El. induction tr as [| [pos [| x y [b |]]] tr IH]; simpl;
    inversion HF; subst; auto.
Qed.

(** X9.  Every batch yielded holds at least one window and exactly as
    many targets as windows, and the batches, laid end to end, are the
    accepted (window, target) pairs in scan order up to a remainder that
    is never yielded: nothing accepted is yielded twice, reordered or
    paired with another window's target. *)
Theorem batches_are_the_accepted_pairs_in_order (cfg : Config) (csv : DataFrame V) :
  let batches := fst (clean_data cfg csv) in
  Forall (fun b : batch V => 0 < length (fst b) /\ length (fst b) = length (snd b))
         batches /\
  exists dropped,
    map snd (accepted (fst (clean_data_trace cfg csv))) =
    combine (concat (map fst batches)) (concat (map snd batches)) ++ dropped.
Proof.
  intros batches. split.
  - pose proof (yields_nonempty cfg csv) as Hne.
    pose proof (yields_balanced cfg csv) as Hbal.
    fold batches in Hne, Hbal. rewrite Forall_forall in *. auto.
  - pose proof (balanced_concat _ (yields_balanced cfg csv)) as Hlen.
    subst batches. rewrite clean_data_yields in *. simpl in *.
    unfold clean_data_trace in *.
    destruct (index _ _) as [k |]; simpl in *; [| exists []; reflexivity].
    destruct (while_loop _ _ _ _ _) as [tr t] eqn:El. simpl in *.
    destruct (while_loop_accounting _ _ _ _ _ _ _ El) as (lx & ly & Hx & Hy & _).
    simpl in Hx, Hy. exists (combine lx ly).
    rewrite <- combine_app_same by exact Hlen.
    rewrite <- Hx, <- Hy.
    rewrite <- (combine_fst_snd (map snd (accepted tr))) at 1.
    rewrite !map_map. reflexivity.
Qed.

(** While every window is accepted, what is held back at the end of the
    scan is less than one batch. *)
Lemma while_loop_remainder (cfg : Config) (data : DataFrame V) (k : nat) :
  0 < batch_size cfg ->
  (forall st, in_range cfg data st = true ->
              exists st' x y yielded,
                loop_body cfg data k st = Ok (st', Accepted x y yielded)) ->
  forall fuel st,
    i st <= num_rows_of data + 1 ->
    num_rows_of data + 2 <= fuel + i st ->
    length (x_data st) = i st mod batch_size cfg ->
    exists left_x,
      x_data st ++
        map (fun p => fst (snd p)) (accepted (fst (while_loop cfg data k fuel st)))
      = concat (map fst (yields (fst (while_loop cfg data k fuel st)))) ++ left_x /\
      length left_x < batch_size cfg.
Proof.
  intros Hb Hok. induction fuel as [| fuel IH]; simpl; intros st Hi Hf Hinv; [lia |].
  assert (Hbound : i st mod batch_size cfg < batch_size cfg)
    by (apply Nat.mod_upper_bound; lia).
  destruct (in_range cfg data st) eqn:Er.
  2:{ exists (x_data st). simpl. rewrite app_nil_r. split; [reflexivity | lia]. }
  destruct (Hok st Er) as (st' & x & y & e & Hbody). rewrite Hbody.
  unfold in_range in Er. apply Nat.leb_le in Er.
  apply loop_body_accepted_inv in Hbody
    as (_ & xw & yw & cells & _ & _ & _ & _ & _ & Hadv & Hcase).
  assert (Hinv' : length (x_data st') = i st' mod batch_size cfg).
  { rewrite Hadv.
    destruct (succ_mod (i st) (batch_size cfg) Hb) as [[E1 E2] | [E1 E2]];
      destruct Hcase as [(Hm & _ & -> & _) | (Hm & _ & -> & _)]; simpl;
      rewrite ?length_app; simpl; lia. }
  destruct (IH st') as (lx & Hx & Hl); try lia.
  destruct (while_loop cfg data k fuel st') as [tr t]. simpl in *.
  exists lx. split; [| exact Hl].
  destruct Hcase as [(_ & -> & Hx' & _) | (_ & -> & Hx' & _)];
    rewrite Hx' in Hx; simpl in *.
  - rewrite Hx, <- !app_assoc. reflexivity.
  - rewrite <- app_assoc in Hx. exact Hx.
Qed.

Lemma concat_length_const {A : Type} (size : nat) (ls : list (list A)) :
  Forall (fun l => length l = size) ls ->
  length (concat ls) = size * length ls.
Proof.
  induction 1 as [| l ls Hl _ IH]; simpl; [lia |].
  rewrite length_app, IH, Hl. lia.
Qed.

(** X10.  On a table without missing cells (the conditions of C2), with
    [n] the number of windows that fit, the generator yields [n / batch_size]
    batches of exactly [batch_size] pairs each, which hold the first
    [n - n mod batch_size] accepted windows: the last [n mod batch_size]
    windows of the table are never yielded. *)
Theorem null_free_batch_count (cfg : Config) (csv : DataFrame V) :
  has_null csv = false ->
  well_formed csv = true ->
  In (y_col cfg) (columns (filter_columns (filter_cols cfg) csv)) ->
  0 < batch_size cfg ->
  0 < x_window_size cfg ->
  let n := num_positions cfg csv in
  Forall (fun b : batch V => length (fst b) = batch_size cfg /\
                             length (snd b) = batch_size cfg)
         (fst (clean_data cfg csv)) /\
  length (fst (clean_data cfg csv)) = n / batch_size cfg /\
  length (concat (map fst (fst (clean_data cfg csv)))) = n - n mod batch_size cfg /\
  length (accepted (fst (clean_data_trace cfg csv))) = n.
Proof.
  intros Hn Hwf Hin Hb Hx n.
  pose proof (null_free_batches_full cfg csv Hn Hb) as Hfull.
  split; [exact Hfull |].
  assert (Hfx : Forall (fun l : list (matrix V) => length l = batch_size cfg)
                       (map fst (fst (clean_data cfg csv)))).
  { apply Forall_map. eapply Forall_impl; [| exact Hfull]. simpl. tauto. }
  apply concat_length_const in Hfx. rewrite length_map in Hfx.
  revert Hfx. rewrite clean_data_yields. simpl. unfold clean_data_trace.
  set (data := filter_columns (filter_cols cfg) csv).
  assert (Hdwf : well_formed data = true) by (apply filter_columns_well_formed, Hwf).
  assert (Hdn : has_null data = false) by (apply filter_columns_null_free, Hn).
  assert (Hnum : num_rows_of data + 1 - (x_window_size cfg + y_window_size cfg) = n).
  { subst n data. unfold num_positions. rewrite filter_columns_num_rows. reflexivity. }
  destruct (index_In _ _ Hin) as (k & Hk). fold data in Hk. rewrite Hk.
  destruct (while_loop_null_free cfg data k Hdwf Hk Hdn Hx Hb
              (num_rows_of data + 2) initial_state) as [_ Hlen]; simpl; try lia.
  destruct (while_loop_remainder cfg data k Hb
              (fun st Hr => loop_body_accepts cfg data k Hdwf Hk st Hx Hb Hr
                              (null_free_windows cfg data (i st) Hdn))
              (num_rows_of data + 2) initial_state) as (lx & Hacc & Hl);
    simpl; try lia.
  { rewrite Nat.Div0.mod_0_l. reflexivity. }
  destruct (while_loop cfg data k (num_rows_of data + 2) initial_state) as [tr t].
  simpl in *. intros Hfx.
  apply (f_equal (@length _)) in Hacc.
  rewrite length_map, length_app, Hfx, Hlen, Nat.sub_0_r, Hnum in Hacc.
  assert (Hq : length (yields tr) = n / batch_size cfg).
  { apply (Nat.div_unique n (batch_size cfg) (length (yields tr)) (length lx));
      [exact Hl | exact Hacc]. }
  assert (Hm : length lx = n mod batch_size cfg).
  { apply (Nat.mod_unique n (batch_size cfg) (length (yields tr)) (length lx));
      [exact Hl | exact Hacc]. }
  rewrite Hlen, Nat.sub_0_r, Hnum. repeat split; [exact Hq | lia].
Qed.

(** X11.  The scan only takes whole windows: at every row index it
    visits, the input window has exactly [x_window_size] rows and the
    target window exactly [y_window_size] rows, all inside the table; it
    never works on a window cut short by the end of the table, and it
    makes no more iterations than there are such row indices. *)
Theorem scan_takes_only_whole_windows (cfg : Config) (csv : DataFrame V)
    (pos : nat) (o : step_outcome V) :
  In (pos, o) (fst (clean_data_trace cfg csv)) ->
  let data := filter_columns (filter_cols cfg) csv in
  pos + x_window_size cfg + y_window_size cfg <= num_rows_of csv /\
  length (values (x_window cfg data pos)) = x_window_size cfg /\
  length (values (y_window cfg data pos)) = y_window_size cfg /\
  length (fst (clean_data_trace cfg csv)) <= num_positions cfg csv.
Proof.
  intros Hin data.
  assert (Hnum : num_rows_of data = num_rows_of csv)
    by apply filter_columns_num_rows.
  revert Hin. unfold clean_data_trace. fold data.
  destruct (index _ _) as [k |]; simpl; [| tauto].
  destruct (while_loop cfg data k (num_rows_of data + 2) initial_state)
    as [tr t] eqn:El. simpl. intros Hin.
  assert (HF : Forall (fun p : nat * step_outcome V =>
             fst p + x_window_size cfg + y_window_size cfg <= num_rows_of data) tr).
  { apply (while_loop_Forall cfg data k (fun _ => True)) with (3 := El); [| exact I].
    intros st st' o' _ Hr _. split; [exact I |]. simpl.
    unfold in_range in Hr. apply Nat.leb_le in Hr. exact Hr. }
  pose proof HF as HF'. rewrite Forall_forall in HF'.
  specialize (HF' _ Hin). simpl in HF'.
  split; [lia |]. unfold x_window, y_window, rows. simpl values.
  rewrite !slice_length. unfold num_rows_of in *.
  split; [lia |]. split; [lia |].
  apply while_loop_positions in El. simpl in El.
  assert (Hlast : forall p, In p (map fst tr) ->
             p + x_window_size cfg + y_window_size cfg <= length (values data)).
  { intros p Hp. apply in_map_iff in Hp as (q & <- & Hq).
    rewrite Forall_forall in HF. exact (HF q Hq). }
  rewrite El in Hlast. unfold num_positions.
  destruct (length tr) as [| m] eqn:Em; [lia |].
  specialize (Hlast m). rewrite in_seq in Hlast. specialize (Hlast ltac:(lia)).
  unfold num_rows_of. lia.
Qed.

(** ** The writer (lines 75-104) *)

(** X12.  When the generator yields at least one batch, the container
    left by the writer holds in [x] the windows of all the batches, in
    the order yielded, each cell converted for storage, and in [y] their
    targets likewise: no fill entry of a creation or of a resize
    survives, and no row is lost or written twice. *)
Theorem writer_stores_all_batches_in_order (cfg : Config) (csv : DataFrame V)
    (disk : option (H5File V)) (b1 : batch V) (rest : list (batch V))
    (t : termination) :
  clean_data cfg csv = (b1 :: rest, t) ->
  snd (create_clean_datafile cfg csv disk) =
    Some {| h5_x := Some (map (map (map to_f4)) (concat (map fst (b1 :: rest))));
            h5_y := Some (map to_f4 (concat (map snd (b1 :: rest)))) |} /\
  (t = Exhausted -> fst (create_clean_datafile cfg csv disk) = Ok tt).
Proof.
  intros Hgen. unfold create_clean_datafile. rewrite Hgen. cbv zeta. cbn [snd fst].
  destruct (writer_states_last b1 rest) as (Hx & Hy & _ & _).
  unfold h5_of. rewrite Hx, Hy. split; [reflexivity |].
  intros ->. reflexivity.
Qed.

Lemma writer_loop_successor (rest : list (batch V)) (w0 w w' : writer_state V)
    (m : nat) :
  nth_error (w0 :: writer_loop w0 rest) m = Some w ->
  nth_error (w0 :: writer_loop w0 rest) (S m) = Some w' ->
  exists b, nth_error rest m = Some b /\ w' = writer_append w b.
Proof.
  revert w0 m. induction rest as [| b rest IH]; intros w0 m; simpl.
  - destruct m; discriminate.
  - destruct m as [| m]; simpl.
    + intros [= <-] [= <-]. eauto.
    + intros Hm HSm. apply (IH (writer_append w0 b) m); assumption.
Qed.

(** X13.  The writer only ever appends: each pass of its loop leaves the
    rows already stored in [x] and [y] as they are and adds, after them,
    the rows of the batch it was given (converted for storage); its
    counters grow by the sizes of that batch and the progress counter by
    one. *)
Theorem writer_append_keeps_stored_rows (b1 : batch V) (rest : list (batch V))
    (m : nat) (w w' : writer_state V) :
  nth_error (writer_states b1 rest) m = Some w ->
  nth_error (writer_states b1 rest) (S m) = Some w' ->
  exists b,
    nth_error rest m = Some b /\
    dset_x w' = dset_x w ++ map (map (map to_f4)) (fst b) /\
    dset_y w' = dset_y w ++ map to_f4 (snd b) /\
    rcount_x w' = rcount_x w + length (fst b) /\
    rcount_y w' = rcount_y w + length (snd b) /\
    batch_no w' = batch_no w + 1.
Proof.
  intros Hm HSm.
  destruct (writer_loop_successor rest _ w w' m Hm HSm) as (b & Hb & ->).
  exists b. split; [exact Hb |].
  pose proof (writer_states_stored _ _ _ _ Hm) as Hs.
  destruct (writer_append_stored _ _ b Hs) as (Hx' & Hy' & _ & _).
  destruct Hs as (Hx & Hy & _ & _).
  rewrite Hx', Hy', Hx, Hy.
  rewrite !map_app, !concat_app, !map_app. simpl. rewrite !app_nil_r.
  destruct b as [xb yb]. simpl. repeat split; reflexivity.
Qed.

(** ** The reader (lines 106-113) *)

Lemma firstn_plus {A : Type} (a b : nat) (l : list A) :
  firstn (a + b) l = firstn a l ++ firstn b (skipn a l).
Proof.
  revert l. induction a as [| a IH]; intros [| x l]; simpl;
    rewrite ?firstn_nil; try reflexivity.
  rewrite IH. reflexivity.
Qed.

Lemma slice_app {A : Type} (lo mid hi : nat) (l : list A) :
  lo <= mid -> mid <= hi ->
  slice lo mid l ++ slice mid hi l = slice lo hi l.
Proof.
  intros H1 H2. unfold slice.
  replace (hi - lo) with ((mid - lo) + (hi - mid)) by lia.
  rewrite firstn_plus, skipn_skipn.
  replace (mid - lo + lo) with mid by lia. reflexivity.
Qed.

Lemma slice_tiling {A : Type} (start size n : nat) (l : list A) :
  concat (map (fun j => slice (start + j * size) (start + j * size + size) l)
              (seq 0 n))
  = slice start (start + n * size) l.
Proof.
  induction n as [| n IH].
  - simpl. unfold slice. rewrite Nat.add_0_r, Nat.sub_diag. reflexivity.
  - rewrite seq_S, map_app, concat_app, IH. simpl. rewrite app_nil_r.
    replace (start + n * size + size) with (start + (size + n * size)) by lia.
    apply slice_app; lia.
Qed.

Lemma slice_to_end {A : Type} (lo hi : nat) (l : list A) :
  length l <= hi -> slice lo hi l = skipn lo l.
Proof.
  intros Hle. unfold slice. apply firstn_all2. rewrite length_skipn. lia.
Qed.

Lemma reader_pulls (cfg : Config) (hf : H5File V) (xs : list (matrix V))
    (ys : list V) (start n : nat) :
  h5_x hf = Some xs -> h5_y hf = Some ys ->
  exists pulls : list (batch V),
    map (generate_clean_data cfg (Some hf) start) (seq 0 n) = map Ok pulls /\
    concat (map fst pulls) = slice start (start + n * batch_size cfg) xs /\
    concat (map snd pulls) = slice start (start + n * batch_size cfg) ys.
Proof.
  intros Hx Hy.
  exists (map (fun j =>
            (slice (start + j * batch_size cfg)
                   (start + j * batch_size cfg + batch_size cfg) xs,
             slice (start + j * batch_size cfg)
                   (start + j * batch_size cfg + batch_size cfg) ys))
          (seq 0 n)).
  split; [| split].
  - rewrite map_map. apply map_ext. intros j.
    apply generate_clean_data_nth; assumption.
  - rewrite map_map. simpl. apply slice_tiling.
  - rewrite map_map. simpl. apply slice_tiling.
Qed.

(** X14.  Successive pulls of the reader tile the stored arrays: the
    first [n] pulls from [start], laid end to end, are the rows from
    [start] up to (not including) [start + n * batch_size], each stored
    row being returned once and in order; once [start + n * batch_size]
    has reached the end of an array they are all its rows from [start]
    on, and further pulls add nothing. *)
Theorem reader_pulls_tile_the_arrays (cfg : Config) (hf : H5File V)
    (xs : list (matrix V)) (ys : list V) (start n : nat) :
  h5_x hf = Some xs ->
  h5_y hf = Some ys ->
  exists pulls : list (batch V),
    map (generate_clean_data cfg (Some hf) start) (seq 0 n) = map Ok pulls /\
    concat (map fst pulls) = slice start (start + n * batch_size cfg) xs /\
    concat (map snd pulls) = slice start (start + n * batch_size cfg) ys /\
    (length xs <= start + n * batch_size cfg ->
     concat (map fst pulls) = skipn start xs) /\
    (length ys <= start + n * batch_size cfg ->
     concat (map snd pulls) = skipn start ys).
Proof.
  intros Hx Hy.
  destruct (reader_pulls cfg hf xs ys start n Hx Hy) as (pulls & Hp & Ex & Ey).
  exists pulls. rewrite Ex, Ey. repeat split; auto using slice_to_end.
Qed.

(** X15.  With [batch_size = 0] the reader never moves: every pull
    succeeds, returns two empty slices and leaves the offset where it
    was, so a consumer waiting for data loops for ever. *)
Theorem reader_with_zero_batch_size_stalls (cfg : Config) (hf : H5File V)
    (xs : list (matrix V)) (ys : list V) (start n : nat) :
  batch_size cfg = 0 ->
  h5_x hf = Some xs ->
  h5_y hf = Some ys ->
  generate_clean_data cfg (Some hf) start n = Ok ([], []) /\
  generate_clean_data_step cfg (Some hf) start = Ok (([], []), start).
Proof.
  intros Hb Hx Hy.
  assert (Hs : forall (A : Type) (l : list A) p, slice p p l = [])
    by (intros; unfold slice; rewrite Nat.sub_diag; reflexivity).
  split.
  - rewrite (generate_clean_data_nth cfg hf xs ys n start Hx Hy).
    rewrite Hb, Nat.mul_0_r, !Nat.add_0_r, !Hs. reflexivity.
  - unfold generate_clean_data_step. rewrite Hx, Hy, Hb, !Nat.add_0_r, !Hs.
    reflexivity.
Qed.

(** X16.  Whatever the sizes of the batches written (with missing cells
    they need not be [batch_size]), reading back from offset 0 until the
    offset has passed the end returns every window and every target the
    generator yielded, once and in the order yielded, each cell as
    converted for storage; only the grouping into batches may differ. *)
Theorem read_back_returns_all_rows_written (cfg : Config) (csv : DataFrame V)
    (disk : option (H5File V)) (b1 : batch V) (rest : list (batch V))
    (t : termination) (n : nat) :
  clean_data cfg csv = (b1 :: rest, t) ->
  length (concat (map fst (b1 :: rest))) <= n * batch_size cfg ->
  exists pulls : list (batch V),
    map (generate_clean_data cfg (snd (create_clean_datafile cfg csv disk)) 0)
        (seq 0 n) = map Ok pulls /\
    concat (map fst pulls) = map (map (map to_f4)) (concat (map fst (b1 :: rest))) /\
    concat (map snd pulls) = map to_f4 (concat (map snd (b1 :: rest))).
Proof.
  intros Hgen Hn.
  pose proof (yields_balanced cfg csv) as Hbal. rewrite Hgen in Hbal. simpl fst in Hbal.
  apply balanced_concat in Hbal.
  unfold create_clean_datafile. rewrite Hgen. cbv zeta. cbn [snd].
  destruct (writer_states_last b1 rest) as (Hx & Hy & _ & _).
  destruct (reader_pulls cfg (h5_of (last (writer_states b1 rest) (writer_init b1)))
              _ _ 0 n eq_refl eq_refl) as (pulls & Hp & Ex & Ey).
  exists pulls. split; [exact Hp |].
  rewrite Ex, Ey, Hx, Hy. simpl Nat.add.
  split.
  - rewrite slice_to_end; [reflexivity | rewrite length_map; exact Hn].
  - rewrite slice_to_end; [reflexivity | rewrite length_map, <- Hbal; exact Hn].
Qed.

(** ** [zero_base_standardize] (lines 115-119) *)

(** X17.  The base returned by [zero_base_standardize] is the base it
    divided by: passing it back with the same window gives the same base
    and the same standardized window.  A base that is not empty is
    returned as it was given.  When the base given is empty, the base
    used is the first row of the window itself, and the result then has
    the columns of the window and as many rows.  (Nothing is said of the
    columns of the result for a base from elsewhere, whose labels need
    not be those of the window.) *)
Theorem zero_base_standardize_returns_base_used (data : DataFrame V)
    (b b' : pandas_obj V) (d : DataFrame V) :
  zero_base_standardize data b = Ok (b', d) ->
  zero_base_standardize data b' = Ok (b', d) /\
  (empty b = false -> b' = b) /\
  (empty b = true ->
   exists r, hd_error (values data) = Some r /\ b' = Series r /\
             columns d = columns data /\
             length (values d) = length (values data)).
Proof.
  unfold zero_base_standardize. destruct (empty b) eqn:Hb.
  - unfold iloc0. destruct (values data) as [| r rest] eqn:Ev; simpl bind;
      [discriminate |].
    intros [= <- <-]. split; [| split].
    + destruct (empty (Series r)); reflexivity.
    + discriminate.
    + intros _. exists r. do 3 (split; [reflexivity |]).
      simpl. rewrite !length_map, Ev. reflexivity.
  - simpl bind. intros [= <- <-]. rewrite Hb. simpl bind.
    split; [reflexivity |]. split; [reflexivity | discriminate].
Qed.

Lemma zip_with_diag {A B : Type} (f : A -> A -> B) (l : list A) :
  zip_with f l l = map (fun a => f a a) l.
Proof.
  induction l as [| a l IH]; simpl; [| rewrite IH]; reflexivity.
Qed.

(** X18.  Standardizing a window on its own first row makes that row
    zero wherever a cell divided by itself is one and one minus one is
    zero (as for every finite non-zero float): the first row of the
    result is then all zeros, which is what "zero based" refers to. *)
Theorem zero_base_standardize_first_row_zero (data : DataFrame V)
    (r : list V) (rest : list (list V)) :
  values data = r :: rest ->
  (forall v, In v r -> fdiv v v = fone) ->
  fsub fone fone = fzero ->
  exists d,
    zero_base_standardize data default_abs_base = Ok (Series r, d) /\
    hd_error (values d) = Some (map (fun _ => fzero) r).
Proof.
  intros Ev Hdiv Hsub. unfold zero_base_standardize. simpl empty. cbv iota.
  unfold iloc0. rewrite Ev. simpl bind. eexists. split; [reflexivity |].
  simpl. rewrite Ev. simpl. f_equal. rewrite zip_with_diag, map_map.
  apply map_ext_in. intros v Hv. rewrite (Hdiv v Hv). exact Hsub.
Qed.

(** ** [min_max_normalize] (lines 121-126) *)

Section MinMaxFacts.

Context `{CellOrder V}.

(** X19.  The bounds returned by [min_max_normalize] are the bounds it
    used: a supplied bound that is not empty is returned as given, an
    empty or omitted one is replaced by the column-wise minimum (maximum)
    of the window, each of the two independently of the other, and
    passing the returned bounds back with the same window gives the same
    result. *)
Theorem min_max_normalize_returns_bounds_used (data : DataFrame V)
    (mn mx mn' mx' : pandas_obj V) (d : DataFrame V) :
  min_max_normalize data mn mx = (mn', mx', d) ->
  min_max_normalize data mn' mx' = (mn', mx', d) /\
  (empty mn = false -> mn' = mn) /\
  (empty mx = false -> mx' = mx) /\
  (empty mn = true -> mn' = Series (frame_min data)) /\
  (empty mx = true -> mx' = Series (frame_max data)) /\
  d = frame_div (frame_sub data mn') (obj_sub mx' mn').
Proof.
  unfold min_max_normalize. intros [= <- <- <-].
  assert (Hfix : forall o alt : pandas_obj V,
             (if empty (if empty o then alt else o) then alt
              else (if empty o then alt else o))
             = (if empty o then alt else o)).
  { intros o alt. destruct (empty o) eqn:Eo.
    - destruct (empty alt); reflexivity.
    - rewrite Eo. reflexivity. }
  rewrite !Hfix. split; [reflexivity |].
  repeat split; intros E; rewrite E; reflexivity.
Qed.

(** The reduction of a list of present cells along a total, transitive
    comparison returns one of the cells, in relation with all of them. *)
Lemma fold_extremum (R : V -> V -> bool) :
  (forall a b, isnull a = false -> isnull b = false ->
               R a b = true \/ R b a = true) ->
  (forall a b c, R a b = true -> R b c = true -> R a c = true) ->
  forall vs v,
    (forall c, In c (v :: vs) -> isnull c = false) ->
    let m := fold_left (fun m c => if R m c then m else c) vs v in
    In m (v :: vs) /\ forall c, In c (v :: vs) -> R m c = true.
Proof.
  intros Htot Htr. induction vs as [| c vs IH]; intros v Hp.
  - simpl. split; [auto |]. intros c [<- | []].
    destruct (Htot v v) as [E | E]; auto using in_eq.
  - simpl fold_left. destruct (R v c) eqn:Evc.
    + destruct (IH v) as [Hin Hle].
      { intros c' [<- | Hc']; apply Hp; simpl; auto. }
      split.
      * destruct Hin as [<- | Hin]; simpl; auto.
      * intros c' [<- | [<- | Hc']].
        -- apply Hle. now left.
        -- apply (Htr _ v); [apply Hle; now left | exact Evc].
        -- apply Hle. now right.
    + destruct (IH c) as [Hin Hle].
      { intros c' [<- | Hc']; apply Hp; simpl; auto. }
      assert (Ecv : R c v = true).
      { destruct (Htot v c) as [E | E]; try (apply Hp; simpl; auto); congruence. }
      split.
      * destruct Hin as [<- | Hin]; simpl; auto.
      * intros c' [<- | [<- | Hc']].
        -- apply (Htr _ c); [apply Hle; now left | exact Ecv].
        -- apply Hle. now left.
        -- apply Hle. now right.
Qed.

Lemma reduce_present_extremum (R : V -> V -> bool) (cells : list V) (v : V) :
  (forall a b, isnull a = false -> isnull b = false ->
               R a b = true \/ R b a = true) ->
  (forall a b c, R a b = true -> R b c = true -> R a c = true) ->
  In v cells -> isnull v = false ->
  let m := reduce_present R cells in
  In m cells /\ isnull m = false /\ R m v = true.
Proof.
  intros Htot Htr Hin Hv. unfold reduce_present.
  assert (Hf : In v (filter (fun c => negb (isnull c)) cells)).
  { apply filter_In. rewrite Hv. auto. }
  destruct (filter (fun c => negb (isnull c)) cells) as [| x xs] eqn:Ef; [destruct Hf |].
  assert (Hp : forall c, In c (x :: xs) -> In c cells /\ isnull c = false).
  { intros c Hc. rewrite <- Ef in Hc. apply filter_In in Hc as [Hc1 Hc2].
    apply negb_true_iff in Hc2. auto. }
  destruct (fold_extremum R Htot Htr xs x (fun c Hc => proj2 (Hp c Hc))) as [Hm Hle].
  cbv zeta. destruct (Hp _ Hm) as [Hm1 Hm2]. auto.
Qed.

Lemma column_cells_In (data : DataFrame V) (j : nat) (r : list V) (v : V) :
  In r (values data) -> nth_error r j = Some v -> In v (column_cells data j).
Proof.
  intros Hr Hv. unfold column_cells. apply in_flat_map.
  exists r. split; [exact Hr |]. rewrite Hv. now left.
Qed.

Lemma nth_error_map_seq {A : Type} (f : nat -> A) (n j : nat) :
  j < n -> nth_error (map f (seq 0 n)) j = Some (f j).
Proof.
  intros Hj. rewrite nth_error_map, nth_error_seq.
  destruct (Nat.ltb_spec j n); [reflexivity | lia].
Qed.

(** X20.  When cells are compared by an order that is total on present
    cells and transitive (as [<=] on floats is), the minimum and maximum
    that [min_max_normalize] computes for a column are cells of that
    column that are present, and every present cell of the column lies
    between them; missing cells are skipped, not propagated. *)
Theorem computed_bounds_enclose_present_cells (data : DataFrame V) (j : nat)
    (r : list V) (v : V) :
  (forall a b, isnull a = false -> isnull b = false ->
               fle a b = true \/ fle b a = true) ->
  (forall a b c, fle a b = true -> fle b c = true -> fle a c = true) ->
  j < length (columns data) ->
  In r (values data) ->
  nth_error r j = Some v ->
  isnull v = false ->
  exists lo hi,
    fst (fst (min_max_normalize data default_abs_base default_abs_base))
      = Series (frame_min data) /\
    snd (fst (min_max_normalize data default_abs_base default_abs_base))
      = Series (frame_max data) /\
    nth_error (frame_min data) j = Some lo /\
    nth_error (frame_max data) j = Some hi /\
    In lo (column_cells data j) /\ In hi (column_cells data j) /\
    isnull lo = false /\ isnull hi = false /\
    fle lo v = true /\ fle v hi = true.
Proof.
  intros Htot Htr Hj Hr Hv Hn.
  pose proof (column_cells_In data j r v Hr Hv) as Hin.
  destruct (reduce_present_extremum (fun m c => fle m c) _ v Htot Htr Hin Hn)
    as (Hl1 & Hl2 & Hl3).
  assert (Htot' : forall a b, isnull a = false -> isnull b = false ->
                             fle b a = true \/ fle a b = true).
  { intros a b Ha Hb. destruct (Htot a b Ha Hb); auto. }
  destruct (reduce_present_extremum (fun m c => fle c m) _ v Htot'
              (fun a b c Hab Hbc => Htr c b a Hbc Hab) Hin Hn)
    as (Hh1 & Hh2 & Hh3).
  exists (column_min (column_cells data j)), (column_max (column_cells data j)).
  unfold frame_min, frame_max.
  rewrite !nth_error_map_seq by exact Hj.
  repeat split; auto.
Qed.

Lemma map_seq_nth_error (g : option V -> V) (r : list V) :
  (forall v, In v r -> g (Some v) = v) ->
  map (fun j => g (nth_error r j)) (seq 0 (length r)) = r.
Proof.
  induction r as [| a r IH]; intros Hg; [reflexivity |].
  simpl length. simpl seq. simpl map. rewrite (Hg a (or_introl eq_refl)).
  f_equal. rewrite <- seq_shift, map_map. simpl nth_error.
  apply IH. intros v Hv. apply Hg. now right.
Qed.

(** X21.  A window of a single row, all of whose cells are present, is
    its own column-wise minimum and maximum, so that every cell is
    normalised to [(v - v) / (v - v)], zero divided by zero: with the
    bounds taken from the window itself, [min_max_normalize] needs at
    least two distinct cells in a column to give a meaningful value. *)
Theorem min_max_normalize_single_row (data : DataFrame V) (r : list V) :
  values data = [r] ->
  length (columns data) = length r ->
  (forall v, In v r -> isnull v = false) ->
  min_max_normalize data default_abs_base default_abs_base =
  (Series r, Series r,
   {| columns := columns data;
      values := [map (fun v => fdiv (fsub v v) (fsub v v)) r] |}).
Proof.
  intros Ev Hlen Hp.
  assert (Hone : forall keep v, isnull v = false ->
             reduce_present keep
               ((match Some v with Some c => [c] | None => [] end) ++ []) = v).
  { intros keep v Hv. unfold reduce_present. simpl. rewrite Hv. reflexivity. }
  assert (Hmin : frame_min data = r).
  { unfold frame_min, column_cells, column_min. rewrite Ev, Hlen. simpl flat_map.
    apply (map_seq_nth_error
             (fun o => reduce_present (fun m c => fle m c)
                         ((match o with Some c => [c] | None => [] end) ++ []))).
    intros v Hv. apply Hone, Hp, Hv. }
  assert (Hmax : frame_max data = r).
  { unfold frame_max, column_cells, column_max. rewrite Ev, Hlen. simpl flat_map.
    apply (map_seq_nth_error
             (fun o => reduce_present (fun m c => fle c m)
                         ((match o with Some c => [c] | None => [] end) ++ []))).
    intros v Hv. apply Hone, Hp, Hv. }
  unfold min_max_normalize. simpl empty. cbv iota. rewrite Hmin, Hmax.
  unfold frame_div, frame_sub, obj_sub. simpl. rewrite Ev. simpl.
  rewrite !zip_with_diag, map_map. reflexivity.
Qed.

End MinMaxFacts.

End MoreFacts.

(** * The further properties on concrete tables *)

(** [nan_table]: four positions, the first rejected, three accepted. *)
Lemma scan_accepts_clean_positions_witness :
  well_formed nan_table = true /\
  In (y_col nan_cfg) (columns (filter_columns (filter_cols nan_cfg) nan_table)) /\
  0 < batch_size nan_cfg /\
  (normalize nan_cfg = true -> 0 < x_window_size nan_cfg) /\
  snd (clean_data_trace nan_cfg nan_table) = Exhausted /\
  map fst (fst (clean_data_trace nan_cfg nan_table)) = [0; 1; 2; 3] /\
  map fst (accepted (fst (clean_data_trace nan_cfg nan_table))) = [1; 2; 3].
Proof.
  assert (Hin : In (y_col nan_cfg)
                   (columns (filter_columns (filter_cols nan_cfg) nan_table)))
    by (left; reflexivity).
  assert (Hb : 0 < batch_size nan_cfg) by (simpl; lia).
  assert (Hx : normalize nan_cfg = true -> 0 < x_window_size nan_cfg)
    by (simpl; lia).
  do 4 (split; [first [reflexivity | assumption] |]).
  exact (scan_accepts_exactly_the_clean_positions nan_cfg nan_table
           eq_refl Hin Hb Hx).
Defined.

(** The scenario of the specification with [batch_size = 0]. *)
Lemma zero_batch_size_raises_witness :
  well_formed scenario_table = true /\
  In (y_col zero_batch_cfg)
     (columns (filter_columns (filter_cols zero_batch_cfg) scenario_table)) /\
  batch_size zero_batch_cfg = 0 /\
  (normalize zero_batch_cfg = true -> 0 < x_window_size zero_batch_cfg) /\
  (exists pos,
      acceptable zero_batch_cfg
        (filter_columns (filter_cols zero_batch_cfg) scenario_table) pos = true) /\
  clean_data zero_batch_cfg scenario_table = ([], Raised ZeroDivisionError) /\
  create_clean_datafile zero_batch_cfg scenario_table None
    = (Raise ZeroDivisionError, Some new_h5).
Proof.
  assert (Hin : In (y_col zero_batch_cfg)
     (columns (filter_columns (filter_cols zero_batch_cfg) scenario_table)))
    by (left; reflexivity).
  assert (Hx : normalize zero_batch_cfg = true -> 0 < x_window_size zero_batch_cfg)
    by (simpl; lia).
  assert (Hex : exists pos,
      acceptable zero_batch_cfg
        (filter_columns (filter_cols zero_batch_cfg) scenario_table) pos = true)
    by (exists 0; reflexivity).
  do 5 (split; [first [reflexivity | assumption] |]).
  exact (zero_batch_size_raises zero_batch_cfg scenario_table None
           eq_refl Hin eq_refl Hx Hex).
Defined.

(** The scenario of the specification with an input window of no row. *)
Lemma empty_input_window_raises_witness :
  In (y_col no_input_cfg)
     (columns (filter_columns (filter_cols no_input_cfg) scenario_table)) /\
  normalize no_input_cfg = true /\
  x_window_size no_input_cfg = 0 /\
  (exists pos,
      acceptable no_input_cfg
        (filter_columns (filter_cols no_input_cfg) scenario_table) pos = true) /\
  clean_data no_input_cfg scenario_table = ([], Raised IndexError) /\
  create_clean_datafile no_input_cfg scenario_table None
    = (Raise IndexError, Some new_h5).
Proof.
  assert (Hin : In (y_col no_input_cfg)
     (columns (filter_columns (filter_cols no_input_cfg) scenario_table)))
    by (left; reflexivity).
  assert (Hex : exists pos,
      acceptable no_input_cfg
        (filter_columns (filter_cols no_input_cfg) scenario_table) pos = true)
    by (exists 0; reflexivity).
  do 4 (split; [first [reflexivity | assumption] |]).
  exact (empty_input_window_raises no_input_cfg scenario_table None
           Hin eq_refl eq_refl Hex).
Defined.

(** [holes_table]: every window of one row and one target row has a hole. *)
Lemma no_clean_window_witness :
  In (y_col nan_cfg) (columns (filter_columns (filter_cols nan_cfg) holes_table)) /\
  (forall pos,
      acceptable nan_cfg (filter_columns (filter_cols nan_cfg) holes_table) pos
      = false) /\
  clean_data_trace nan_cfg holes_table =
    (map (fun pos => (pos, Rejected))
         (seq 0 (num_positions nan_cfg
                   (filter_columns (filter_cols nan_cfg) holes_table))),
     Exhausted) /\
  clean_data nan_cfg holes_table = ([], Exhausted).
Proof.
  assert (Hin : In (y_col nan_cfg)
                   (columns (filter_columns (filter_cols nan_cfg) holes_table)))
    by (left; reflexivity).
  assert (Hnone : forall pos,
      acceptable nan_cfg (filter_columns (filter_cols nan_cfg) holes_table) pos
      = false).
  { intros [| [| [| [| pos]]]]; try reflexivity.
    unfold acceptable. apply andb_false_intro1. apply Nat.leb_gt.
    change (num_rows_of (filter_columns (filter_cols nan_cfg) holes_table)) with 5.
    simpl. lia. }
  split; [exact Hin |]. split; [exact Hnone |].
  exact (no_clean_window_ends_quietly nan_cfg holes_table Hin Hnone).
Defined.


(** The windows of the scenario: three rows of one cell. *)
Lemma accepted_windows_shape_witness :
  well_formed scenario_table = true /\
  (forall pos x y,
      In (pos, (x, y)) (accepted (fst (clean_data_trace scenario_cfg scenario_table))) ->
      has_shape 3 1 x) /\
  (forall b w,
      In b (fst (clean_data scenario_cfg scenario_table)) -> In w (fst b) ->
      has_shape 3 1 w).
Proof.
  split; [reflexivity |].
  exact (accepted_windows_have_one_shape scenario_cfg scenario_table eq_refl).
Defined.

(** [nan_table]: the window at row 1 is followed by a yield, 2 being a
    multiple of [batch_size = 2]. *)
Lemma batch_yielded_witness :
  In (1, Accepted [[Num 1]] (Num 2) (Some ([[[Num 1]]], [Num 2])))
     (fst (clean_data_trace nan_cfg nan_table)) /\
  batch_size nan_cfg <> 0 /\
  (((1 + 1) mod batch_size nan_cfg = 0 /\
    exists xs ys,
      Some ([[[Num 1]]], [Num 2]) = Some (xs ++ [[[Num 1]]], ys ++ [Num 2]) /\
      length xs = length ys)
   \/
   ((1 + 1) mod batch_size nan_cfg <> 0 /\
    Some ([[[Num 1]]], [Num 2]) = @None (batch num))).
Proof.
  assert (Hin : In (1, Accepted [[Num 1]] (Num 2) (Some ([[[Num 1]]], [Num 2])))
                   (fst (clean_data_trace nan_cfg nan_table)))
    by (right; left; reflexivity).
  split; [exact Hin |].
  exact (batch_yielded_when_next_index_is_multiple nan_cfg nan_table 1
           [[Num 1]] (Num 2) (Some ([[[Num 1]]], [Num 2])) Hin).
Defined.

(** The scenario: 17 windows fit, 8 batches hold the first 16. *)
Lemma null_free_batch_count_witness :
  has_null scenario_table = false /\
  well_formed scenario_table = true /\
  In (y_col scenario_cfg)
     (columns (filter_columns (filter_cols scenario_cfg) scenario_table)) /\
  0 < batch_size scenario_cfg /\
  0 < x_window_size scenario_cfg /\
  Forall (fun b : batch num => length (fst b) = batch_size scenario_cfg /\
                               length (snd b) = batch_size scenario_cfg)
         (fst (clean_data scenario_cfg scenario_table)) /\
  length (fst (clean_data scenario_cfg scenario_table)) = 8 /\
  length (concat (map fst (fst (clean_data scenario_cfg scenario_table)))) = 16 /\
  length (accepted (fst (clean_data_trace scenario_cfg scenario_table))) = 17.
Proof.
  assert (Hin : In (y_col scenario_cfg)
     (columns (filter_columns (filter_cols scenario_cfg) scenario_table)))
    by (left; reflexivity).
  assert (Hb : 0 < batch_size scenario_cfg) by (simpl; lia).
  assert (Hx : 0 < x_window_size scenario_cfg) by (simpl; lia).
  do 5 (split; [first [reflexivity | assumption] |]).
  exact (null_free_batch_count scenario_cfg scenario_table
           eq_refl eq_refl Hin Hb Hx).
Defined.

(** [nan_table]: the first position visited, with its two windows. *)
Lemma scan_takes_whole_windows_witness :
  In (0, Rejected) (fst (clean_data_trace nan_cfg nan_table)) /\
  0 + x_window_size nan_cfg + y_window_size nan_cfg <= num_rows_of nan_table /\
  length (values (x_window nan_cfg
                    (filter_columns (filter_cols nan_cfg) nan_table) 0))
    = x_window_size nan_cfg /\
  length (values (y_window nan_cfg
                    (filter_columns (filter_cols nan_cfg) nan_table) 0))
    = y_window_size nan_cfg /\
  length (fst (clean_data_trace nan_cfg nan_table)) <= num_positions nan_cfg nan_table.
Proof.
  assert (Hin : In (0, @Rejected num) (fst (clean_data_trace nan_cfg nan_table)))
    by (left; reflexivity).
  split; [exact Hin |].
  exact (scan_takes_only_whole_windows nan_cfg nan_table 0 Rejected Hin).
Defined.

(** [gap_table]: the four rows of the only batch, as stored. *)
Lemma writer_stores_all_batches_witness :
  exists b1 rest t,
    clean_data gap_cfg gap_table = (b1 :: rest, t) /\
    snd (create_clean_datafile gap_cfg gap_table None) =
      Some {| h5_x := Some (map (map (map to_f4)) (concat (map fst (b1 :: rest))));
              h5_y := Some (map to_f4 (concat (map snd (b1 :: rest)))) |} /\
    (t = Exhausted -> fst (create_clean_datafile gap_cfg gap_table None) = Ok tt).
Proof.
  destruct (clean_data gap_cfg gap_table) as [[| b1 rest] t] eqn:E;
    [vm_compute in E; discriminate E |].
  exists b1, rest, t. split; [reflexivity |].
  exact (writer_stores_all_batches_in_order gap_cfg gap_table None b1 rest t E).
Defined.

(** The two batches of [nan_table]: the append of the second one. *)
Lemma writer_append_witness :
  exists w w',
    nth_error (writer_states ([[[Num 1]]], [Num 2])
                 [([[[Num 2]]; [[Num 3]]], [Num 3; Num 4])]) 0 = Some w /\
    nth_error (writer_states ([[[Num 1]]], [Num 2])
                 [([[[Num 2]]; [[Num 3]]], [Num 3; Num 4])]) 1 = Some w' /\
    exists b,
      nth_error [([[[Num 2]]; [[Num 3]]], [Num 3; Num 4])] 0 = Some b /\
      dset_x w' = dset_x w ++ map (map (map to_f4)) (fst b) /\
      dset_y w' = dset_y w ++ map to_f4 (snd b) /\
      rcount_x w' = rcount_x w + length (fst b) /\
      rcount_y w' = rcount_y w + length (snd b) /\
      batch_no w' = batch_no w + 1.
Proof.
  eexists _, _. split; [reflexivity |]. split; [reflexivity |].
  exact (writer_append_keeps_stored_rows ([[[Num 1]]], [Num 2])
           [([[[Num 2]]; [[Num 3]]], [Num 3; Num 4])] 0 _ _ eq_refl eq_refl).
Defined.

(** Two pulls of two from a container of three rows cover it. *)
Lemma reader_pulls_tile_witness :
  h5_x three_rows_h5 = Some [[[Num 1]]; [[Num 2]]; [[Num 3]]] /\
  h5_y three_rows_h5 = Some [Num 2; Num 3; Num 4] /\
  exists pulls : list (batch num),
    map (generate_clean_data nan_cfg (Some three_rows_h5) 0) (seq 0 2) = map Ok pulls /\
    concat (map fst pulls) =
      slice 0 (0 + 2 * batch_size nan_cfg) [[[Num 1]]; [[Num 2]]; [[Num 3]]] /\
    concat (map snd pulls) =
      slice 0 (0 + 2 * batch_size nan_cfg) [Num 2; Num 3; Num 4] /\
    (length [[[Num 1]]; [[Num 2]]; [[Num 3]]] <= 0 + 2 * batch_size nan_cfg ->
     concat (map fst pulls) = skipn 0 [[[Num 1]]; [[Num 2]]; [[Num 3]]]) /\
    (length [Num 2; Num 3; Num 4] <= 0 + 2 * batch_size nan_cfg ->
     concat (map snd pulls) = skipn 0 [Num 2; Num 3; Num 4]).
Proof.
  split; [reflexivity |]. split; [reflexivity |].
  exact (reader_pulls_tile_the_arrays nan_cfg three_rows_h5
           [[[Num 1]]; [[Num 2]]; [[Num 3]]] [Num 2; Num 3; Num 4] 0 2
           eq_refl eq_refl).
Defined.

(** The reader with [batch_size = 0] on a container of three rows. *)
Lemma reader_stalls_witness :
  batch_size zero_batch_cfg = 0 /\
  h5_x three_rows_h5 = Some [[[Num 1]]; [[Num 2]]; [[Num 3]]] /\
  h5_y three_rows_h5 = Some [Num 2; Num 3; Num 4] /\
  generate_clean_data zero_batch_cfg (Some three_rows_h5) 1 5 = Ok ([], []) /\
  generate_clean_data_step zero_batch_cfg (Some three_rows_h5) 1 = Ok (([], []), 1).
Proof.
  do 3 (split; [reflexivity |]).
  exact (reader_with_zero_batch_size_stalls zero_batch_cfg three_rows_h5
           [[[Num 1]]; [[Num 2]]; [[Num 3]]] [Num 2; Num 3; Num 4] 1 5
           eq_refl eq_refl eq_refl).
Defined.

(** [gap_table]: one batch of four written, two pulls of three read. *)
Lemma read_back_all_rows_witness :
  exists b1 rest t,
    clean_data gap_cfg gap_table = (b1 :: rest, t) /\
    length (concat (map fst (b1 :: rest))) <= 2 * batch_size gap_cfg /\
    exists pulls : list (batch num),
      map (generate_clean_data gap_cfg
             (snd (create_clean_datafile gap_cfg gap_table None)) 0) (seq 0 2)
        = map Ok pulls /\
      concat (map fst pulls)
        = map (map (map to_f4)) (concat (map fst (b1 :: rest))) /\
      concat (map snd pulls) = map to_f4 (concat (map snd (b1 :: rest))).
Proof.
  destruct (clean_data gap_cfg gap_table) as [[| b1 rest] t] eqn:E;
    [vm_compute in E; discriminate E |].
  assert (Hlen : length (concat (map fst (b1 :: rest))) <= 2 * batch_size gap_cfg).
  { vm_compute in E. injection E as <- <- <-. simpl. lia. }
  exists b1, rest, t. split; [reflexivity |]. split; [exact Hlen |].
  exact (read_back_returns_all_rows_written gap_cfg gap_table None b1 rest t 2
           E Hlen).
Defined.

(** Standardizing [small_window] with the default base, then again with
    the base that came back. *)
Lemma zero_base_standardize_returns_base_witness :
  zero_base_standardize small_window default_abs_base =
    Ok (Series [Num 2; Num 4],
        {| columns := ["open"; "close"]%string;
           values := [[Num 0; Num 0]; [Num (1 # 2); Num 1]] |}) /\
  zero_base_standardize small_window (Series [Num 2; Num 4]) =
    Ok (Series [Num 2; Num 4],
        {| columns := ["open"; "close"]%string;
           values := [[Num 0; Num 0]; [Num (1 # 2); Num 1]] |}) /\
  (empty (@default_abs_base num) = false ->
   Series [Num 2; Num 4] = default_abs_base) /\
  (empty (@default_abs_base num) = true ->
   exists r, hd_error (values small_window) = Some r /\
             Series [Num 2; Num 4] = Series r /\
             columns {| columns := ["open"; "close"]%string;
                        values := [[Num 0; Num 0]; [Num (1 # 2); Num 1]] |}
               = columns small_window /\
             length (values {| columns := ["open"; "close"]%string;
                               values := [[Num 0; Num 0]; [Num (1 # 2); Num 1]] |})
               = length (values small_window)).
Proof.
  split; [reflexivity |].
  exact (zero_base_standardize_returns_base_used small_window default_abs_base
           (Series [Num 2; Num 4])
           {| columns := ["open"; "close"]%string;
              values := [[Num 0; Num 0]; [Num (1 # 2); Num 1]] |} eq_refl).
Defined.

(** The first row of [small_window] becomes zero. *)
Lemma zero_base_first_row_witness :
  values small_window = [Num 2; Num 4] :: [[Num 3; Num 8]] /\
  (forall v, In v [Num 2; Num 4] -> fdiv v v = fone) /\
  fsub (fone : num) fone = fzero /\
  exists d,
    zero_base_standardize small_window default_abs_base
      = Ok (Series [Num 2; Num 4], d) /\
    hd_error (values d) = Some (map (fun _ => fzero) [Num 2; Num 4]).
Proof.
  assert (Hdiv : forall v, In v [Num 2; Num 4] -> fdiv v v = fone).
  { intros v [<- | [<- | []]]; reflexivity. }
  split; [reflexivity |]. split; [exact Hdiv |]. split; [reflexivity |].
  exact (zero_base_standardize_first_row_zero small_window
           [Num 2; Num 4] [[Num 3; Num 8]] eq_refl Hdiv eq_refl).
Defined.

(** [ragged_min_window] with a supplied minimum and the maximum taken
    from the window. *)
Lemma min_max_normalize_bounds_witness :
  min_max_normalize ragged_min_window (Series [Num 0; Num 0]) default_abs_base =
    (Series [Num 0; Num 0], Series [Num 5; Num 9],
     {| columns := ["open"; "close"]%string;
        values := [[Num (2 # 5); Num 1]; [Num 1; NaN];
                   [Num (3 # 5); Num (4 # 9)]] |}) /\
  min_max_normalize ragged_min_window (Series [Num 0; Num 0]) (Series [Num 5; Num 9]) =
    (Series [Num 0; Num 0], Series [Num 5; Num 9],
     {| columns := ["open"; "close"]%string;
        values := [[Num (2 # 5); Num 1]; [Num 1; NaN];
                   [Num (3 # 5); Num (4 # 9)]] |}) /\
  (empty (Series [Num 0; Num 0]) = false ->
   Series [Num 0; Num 0] = Series [Num 0; Num 0]) /\
  (empty (@default_abs_base num) = false ->
   Series [Num 5; Num 9] = @default_abs_base num) /\
  (empty (Series [Num 0; Num 0]) = true ->
   Series [Num 0; Num 0] = Series (frame_min ragged_min_window)) /\
  (empty (@default_abs_base num) = true ->
   Series [Num 5; Num 9] = Series (frame_max ragged_min_window)) /\
  {| columns := ["open"; "close"]%string;
     values := [[Num (2 # 5); Num 1]; [Num 1; NaN]; [Num (3 # 5); Num (4 # 9)]] |}
  = frame_div (frame_sub ragged_min_window (Series [Num 0; Num 0]))
              (obj_sub (Series [Num 5; Num 9]) (Series [Num 0; Num 0])).
Proof.
  split; [reflexivity |].
  exact (min_max_normalize_returns_bounds_used ragged_min_window
           (Series [Num 0; Num 0]) default_abs_base
           (Series [Num 0; Num 0]) (Series [Num 5; Num 9])
           {| columns := ["open"; "close"]%string;
              values := [[Num (2 # 5); Num 1]; [Num 1; NaN];
                         [Num (3 # 5); Num (4 # 9)]] |} eq_refl).
Defined.

Lemma le_total (a b : num) :
  isnull a = false -> isnull b = false -> fle a b = true \/ fle b a = true.
Proof.
  destruct a as [p |], b as [q |]; simpl; try discriminate. intros _ _.
  rewrite !Qle_bool_iff. destruct (Qlt_le_dec p q) as [Hlt | Hle]; auto.
  left. apply Qlt_le_weak, Hlt.
Qed.

Lemma le_trans (a b c : num) :
  fle a b = true -> fle b c = true -> fle a c = true.
Proof.
  destruct a as [p |], b as [q |], c as [r |]; simpl; try discriminate.
  rewrite !Qle_bool_iff. apply Qle_trans.
Qed.

(** [ragged_min_window]: the cell 9 of the column [close], whose middle
    cell is missing, lies between the bounds 4 and 9 computed for it. *)
Lemma computed_bounds_witness :
  1 < length (columns ragged_min_window) /\
  In [Num 2; Num 9] (values ragged_min_window) /\
  nth_error [Num 2; Num 9] 1 = Some (Num 9) /\
  isnull (Num 9) = false /\
  exists lo hi,
    fst (fst (min_max_normalize ragged_min_window default_abs_base default_abs_base))
      = Series (frame_min ragged_min_window) /\
    snd (fst (min_max_normalize ragged_min_window default_abs_base default_abs_base))
      = Series (frame_max ragged_min_window) /\
    nth_error (frame_min ragged_min_window) 1 = Some lo /\
    nth_error (frame_max ragged_min_window) 1 = Some hi /\
    In lo (column_cells ragged_min_window 1) /\
    In hi (column_cells ragged_min_window 1) /\
    isnull lo = false /\ isnull hi = false /\
    fle lo (Num 9) = true /\ fle (Num 9) hi = true.
Proof.
  assert (Hj : 1 < length (columns ragged_min_window)) by (simpl; lia).
  assert (Hr : In [Num 2; Num 9] (values ragged_min_window)) by (left; reflexivity).
  split; [exact Hj |]. split; [exact Hr |]. split; [reflexivity |].
  split; [reflexivity |].
  exact (computed_bounds_enclose_present_cells ragged_min_window 1
           [Num 2; Num 9] (Num 9) le_total le_trans Hj Hr eq_refl eq_refl).
Defined.

(** A window of the single row [2, 4]: every cell becomes 0/0. *)
Lemma min_max_single_row_witness :
  values {| columns := ["open"; "close"]%string; values := [[Num 2; Num 4]] |}
    = [[Num 2; Num 4]] /\
  length (columns {| columns := ["open"; "close"]%string;
                     values := [[Num 2; Num 4]] |}) = length [Num 2; Num 4] /\
  (forall v, In v [Num 2; Num 4] -> isnull v = false) /\
  min_max_normalize {| columns := ["open"; "close"]%string;
                       values := [[Num 2; Num 4]] |}
                    default_abs_base default_abs_base =
  (Series [Num 2; Num 4], Series [Num 2; Num 4],
   {| columns := ["open"; "close"]%string;
      values := [map (fun v => fdiv (fsub v v) (fsub v v)) [Num 2; Num 4]] |}).
Proof.
  assert (Hp : forall v, In v [Num 2; Num 4] -> isnull v = false).
  { intros v [<- | [<- | []]]; reflexivity. }
  split; [reflexivity |]. split; [reflexivity |]. split; [exact Hp |].
  exact (min_max_normalize_single_row
           {| columns := ["open"; "close"]%string; values := [[Num 2; Num 4]] |}
           [Num 2; Num 4] eq_refl eq_refl Hp).
Defined.

(** * Writing and reading back a table without missing cells *)

Section RoundTrip.

Context {V : Type} `{Cell V}.

Lemma map_pointwise_id {A : Type} (f : A -> A) (l : list A) :
  (forall a, In a l -> f a = a) -> map f l = l.
Proof.
  intros Hf. induction l as [| a l IH]; simpl; [reflexivity |].
  rewrite (Hf a (or_introl eq_refl)), IH; [reflexivity |].
  intros a' Ha'. apply Hf. now right.
Qed.

(** X22.  For a table without missing cells and a positive [batch_size],
    the pull of rank [n] of the reader from offset 0, for [n] below the
    number of batches yielded, returns the batch of rank [n] written by
    [create_clean_datafile], each cell as converted to single precision
    for storage; when the cells of that batch are values that this
    conversion leaves as they are, the batch read is the batch written.
    (Other cells come back rounded.) *)
Theorem roundtrip_without_missing_cells (cfg : Config) (csv : DataFrame V)
    (disk : option (H5File V)) (n : nat) :
  has_null csv = false ->
  0 < batch_size cfg ->
  let batches := fst (clean_data cfg csv) in
  let file := snd (create_clean_datafile cfg csv disk) in
  n < length batches ->
  generate_clean_data cfg file 0 n =
    Ok (map (map (map to_f4)) (fst (nth n batches ([], []))),
        map to_f4 (snd (nth n batches ([], [])))) /\
  ((forall w r v, In w (fst (nth n batches ([], []))) -> In r w -> In v r ->
                  to_f4 v = v) ->
   (forall v, In v (snd (nth n batches ([], []))) -> to_f4 v = v) ->
   generate_clean_data cfg file 0 n = Ok (nth n batches ([], []))).
Proof.
  intros Hn Hb batches file Hlt.
  assert (Hpull : generate_clean_data cfg file 0 n =
     Ok (map (map (map to_f4)) (fst (nth n batches ([], []))),
         map to_f4 (snd (nth n batches ([], []))))).
  { apply null_free_roundtrip; assumption. }
  split; [exact Hpull |].
  intros Hx Hy. rewrite Hpull.
  destruct (nth n batches ([], [])) as [xs ys]. simpl in Hx, Hy |- *.
  rewrite (map_pointwise_id to_f4 ys Hy).
  rewrite (map_pointwise_id (map (map to_f4)) xs); [reflexivity |].
  intros w Hw. apply map_pointwise_id. intros r Hr.
  apply map_pointwise_id. intros v Hv. exact (Hx w r v Hw Hr Hv).
Qed.

End RoundTrip.

(** The scenario of the specification, written and read back.  The first
    batch holds the windows at positions 0 and 1, whose cells 0, 1, 2,
    1/2, 3 and 3/2 are single precision values. *)
Lemma roundtrip_witness :
  has_null scenario_table = false /\
  0 < batch_size scenario_cfg /\
  0 < length (fst (clean_data scenario_cfg scenario_table)) /\
  nth 0 (fst (clean_data scenario_cfg scenario_table)) ([], []) =
    ([[[Num 0]; [Num 1]; [Num 2]]; [[Num 0]; [Num (1 # 2)]; [Num 1]]],
     [Num 3; Num (3 # 2)]) /\
  (forall w r v,
      In w (fst (nth 0 (fst (clean_data scenario_cfg scenario_table)) ([], []))) ->
      In r w -> In v r -> to_f4 v = v) /\
  (forall v,
      In v (snd (nth 0 (fst (clean_data scenario_cfg scenario_table)) ([], []))) ->
      to_f4 v = v) /\
  generate_clean_data scenario_cfg
    (snd (create_clean_datafile scenario_cfg scenario_table None)) 0 0 =
  Ok (nth 0 (fst (clean_data scenario_cfg scenario_table)) ([], [])).
Proof.
  assert (Hb : 0 < batch_size scenario_cfg) by (simpl; lia).
  assert (Hlen : 0 < length (fst (clean_data scenario_cfg scenario_table)))
    by (cbv; lia).
  assert (Hx : forall w r v,
      In w (fst (nth 0 (fst (clean_data scenario_cfg scenario_table)) ([], []))) ->
      In r w -> In v r -> to_f4 v = v).
  { intros w r v Hw Hr Hv. cbv in Hw.
    destruct Hw as [<- | [<- | []]];
      cbv in Hr; destruct Hr as [<- | [<- | [<- | []]]];
      cbv in Hv; destruct Hv as [<- | []]; reflexivity. }
  assert (Hy : forall v,
      In v (snd (nth 0 (fst (clean_data scenario_cfg scenario_table)) ([], []))) ->
      to_f4 v = v).
  { intros v Hv. cbv in Hv. destruct Hv as [<- | [<- | []]]; reflexivity. }
  split; [reflexivity |]. split; [exact Hb |]. split; [exact Hlen |].
  split; [reflexivity |]. split; [exact Hx |]. split; [exact Hy |].
  exact (proj2 (roundtrip_without_missing_cells scenario_cfg scenario_table None 0
                  eq_refl Hb Hlen) Hx Hy).
Defined.

(** The second batch of the scenario holds the window at position 2,
    whose cells 1/3 and 2/3 are not single precision values: they are
    read back rounded. *)
Example scenario_second_batch_read_back_rounded :
  nth 1 (fst (clean_data scenario_cfg scenario_table)) ([], []) =
    ([[[Num 0]; [Num (1 # 3)]; [Num (2 # 3)]];
      [[Num 0]; [Num (1 # 4)]; [Num (1 # 2)]]],
     [Num 1; Num (3 # 4)]) /\
  generate_clean_data scenario_cfg
    (snd (create_clean_datafile scenario_cfg scenario_table None)) 0 1 =
    Ok ([[[Num 0]; [Num (11184811 # 33554432)]; [Num (11184811 # 16777216)]];
         [[Num 0]; [Num (1 # 4)]; [Num (1 # 2)]]],
        [Num 1; Num (3 # 4)]).
Proof.
  split; reflexivity.
Qed.

(** Single precision rounding on some known values: 1/10 and 1/3 are
    rounded, [2 ^ 24 + 1] goes to the even neighbour below and
    [2 ^ 24 + 3] to the even neighbour above, 3/2 and -5/2 are kept. *)
Example to_f4_known_values :
  to_f4 (Num (1 # 10)) = Num (13421773 # 134217728) /\
  to_f4 (Num (1 # 3)) = Num (11184811 # 33554432) /\
  to_f4 (Num 16777217) = Num 16777216 /\
  to_f4 (Num 16777219) = Num 16777220 /\
  to_f4 (Num (3 # 2)) = Num (3 # 2) /\
  to_f4 (Num (- 5 # 2)) = Num (- 5 # 2) /\
  to_f4 NaN = NaN.
Proof.
  repeat split; reflexivity.
Qed.
